(** * dbt-oracle: the Oracle adapter's credentials and connection manager

    A shallow embedding of [dbt/adapters/oracle/connections.py]:
    the credentials record with its connection-method inference and DSN
    construction, and the connection manager ([open], [cancel],
    [exception_handler], [add_query], [add_begin_query]) written in a small
    state-and-exception monad over the connection object, the outside world
    (the cx_Oracle driver and the dbt host tool) and a trace of the calls
    made to them.

    Python [str] values are Rocq strings, one [ascii] per character (code
    points below 256); Python [int] is [Z]; an [Optional] field is an
    [option]. *)

From Stdlib Require Import ZArith String Ascii List Bool Lia DecimalString.
From Stdlib Require DecimalPos DecimalZ.
Import ListNotations.
Open Scope string_scope.

(* ================================================================= *)
(** ** Python values and formatting *)

(** Truth value of an [Optional[str]]: [None] and the empty string are
    false. *)
Definition truthy_str (o : option string) : bool :=
  match o with
  | Some s => negb (s =? "")
  | None => false
  end.

(** Truth value of an [Optional[bool]]. *)
Definition truthy_bool (o : option bool) : bool :=
  match o with
  | Some b => b
  | None => false
  end.

(** [str(n)] for an [int]. *)
Definition str_int (n : Z) : string := NilZero.string_of_int (Z.to_int n).

(** What an f-string or [str.format] prints for an [Optional] field. *)
Definition format_opt_str (o : option string) : string :=
  match o with
  | Some s => s
  | None => "None"
  end.

Definition format_opt_int (o : option Z) : string :=
  match o with
  | Some n => str_int n
  | None => "None"
  end.

(** [c.isspace()] on the code points below 256. *)
Definition isspace (a : ascii) : bool :=
  let n := nat_of_ascii a in
  ((9 <=? n)%nat && (n <=? 13)%nat) || ((28 <=? n)%nat && (n <=? 32)%nat)
  || (n =? 133)%nat || (n =? 160)%nat.

Fixpoint lstrip (s : string) : string :=
  match s with
  | EmptyString => EmptyString
  | String a s' => if isspace a then lstrip s' else s
  end.

(** [rstrip] drops the trailing run of whitespace: a whitespace character
    is kept only when something remains after stripping what follows. *)
Fixpoint rstrip (s : string) : string :=
  match s with
  | EmptyString => EmptyString
  | String a s' =>
      match rstrip s' with
      | EmptyString => if isspace a then EmptyString else String a EmptyString
      | r => String a r
      end
  end.

(** [s.strip()] *)
Definition strip (s : string) : string := rstrip (lstrip s).

(** The double-quote character, for the log lines that contain one. *)
Definition dquote : string := String (ascii_of_nat 34) EmptyString.

(* ================================================================= *)
(** ** Credentials *)

Inductive OracleConnectionMethod : Type :=
| HOST
| TNS
| CONNECTION_STRING.

(** [str(method)], as the f-string in [open] prints it. *)
Definition str_method (m : OracleConnectionMethod) : string :=
  match m with
  | HOST => "OracleConnectionMethod.HOST"
  | TNS => "OracleConnectionMethod.TNS"
  | CONNECTION_STRING => "OracleConnectionMethod.CONNECTION_STRING"
  end.

(** [OracleAdapterCredentials]: [database] and [schema] come from the base
    [Credentials] dataclass, the rest is declared by the adapter. *)
Record OracleAdapterCredentials : Type := {
  database : string;
  schema : string;
  user : string;
  password : string;
  port : option Z;
  host : option string;
  service : option string;
  connection_string : option string;
  debug_log_commands : option bool;
  cursor_precode : option string
}.

Definition default_port : option Z := Some 1521%Z.

(** The credentials [c] with another password, every other field kept. *)
Definition with_password (c : OracleAdapterCredentials) (p : string)
  : OracleAdapterCredentials :=
  {| database := database c; schema := schema c; user := user c;
     password := p; port := port c; host := host c; service := service c;
     connection_string := connection_string c;
     debug_log_commands := debug_log_commands c;
     cursor_precode := cursor_precode c |}.

Definition connection_keys : list string :=
  ["user"; "database"; "schema"; "host"; "port"; "service";
   "connection_string"].

Definition connection_method (self : OracleAdapterCredentials)
  : OracleConnectionMethod :=
  if truthy_str (connection_string self) then CONNECTION_STRING
  else if truthy_str (host self) then HOST
  else TNS.

(** [get_dsn] returns a field as it is in two of its branches, so its
    result is the Python value: [None] is possible for the type, although
    never returned (see [get_dsn_is_str]). *)
Definition get_dsn (self : OracleAdapterCredentials) : option string :=
  let method := connection_method self in
  match method with
  | TNS => Some (database self)
  | CONNECTION_STRING => connection_string self
  | HOST =>
      let service :=
        if truthy_str (service self)
        then format_opt_str (service self)
        else database self in
      Some (format_opt_str (host self) ++ ":" ++ format_opt_int (port self)
            ++ "/" ++ service)
  end.

(* ================================================================= *)
(** ** Exceptions *)

(** The exception classes the manager and the context-manager machinery
    tell apart.  An exception carries the most specific of these classes
    that its own class derives from: [BaseException] stands for the
    classes outside [Exception] (KeyboardInterrupt, SystemExit),
    [Exception] for any other subclass of it (AttributeError, TypeError),
    [cx_Error] for the driver errors that are not database errors
    (InterfaceError).  [StopIteration] and [RuntimeError] are the
    built-in classes.  The dbt classes form the chain
    FailedToConnectException < DatabaseException < RuntimeException of
    dbt-core, whose RuntimeException derives from the built-in
    RuntimeError. *)
Inductive exc_class : Type :=
| BaseException
| Exception
| StopIteration
| RuntimeError
| cx_Error
| cx_DatabaseError
| dbt_RuntimeException
| dbt_DatabaseException
| dbt_FailedToConnectException.

Definition issubclass (c d : exc_class) : bool :=
  match d with
  | BaseException => true
  | Exception =>
      match c with BaseException => false | _ => true end
  | StopIteration =>
      match c with StopIteration => true | _ => false end
  | RuntimeError =>
      match c with
      | RuntimeError | dbt_RuntimeException | dbt_DatabaseException
      | dbt_FailedToConnectException => true
      | _ => false
      end
  | cx_Error =>
      match c with cx_Error | cx_DatabaseError => true | _ => false end
  | cx_DatabaseError =>
      match c with cx_DatabaseError => true | _ => false end
  | dbt_RuntimeException =>
      match c with
      | dbt_RuntimeException | dbt_DatabaseException
      | dbt_FailedToConnectException => true
      | _ => false
      end
  | dbt_DatabaseException =>
      match c with
      | dbt_DatabaseException | dbt_FailedToConnectException => true
      | _ => false
      end
  | dbt_FailedToConnectException =>
      match c with dbt_FailedToConnectException => true | _ => false end
  end.

(** An exception object: its class, the argument it was built with (a
    message, or another exception as in [RuntimeException(e)]) and its
    explicit cause (the [from e] of a [raise]). *)
Inductive exc : Type :=
| MkExc (cls : exc_class) (arg : exc_arg) (cause : exc_cause)
with exc_arg : Type :=
| ArgStr (s : string)
| ArgExc (e : exc)
with exc_cause : Type :=
| NoCause
| CausedBy (e : exc).

Definition exc_cls (e : exc) : exc_class :=
  match e with MkExc c _ _ => c end.

Definition exc_cause_of (e : exc) : exc_cause :=
  match e with MkExc _ _ c => c end.

Definition isinstance (e : exc) (d : exc_class) : bool :=
  issubclass (exc_cls e) d.

(** The message an exception was built with.  For the driver's and the
    built-in exceptions this is [str(e)], and the manager takes [str] of
    such exceptions only: of the driver's database error in [open] and in
    the handler, of what the driver's close raised in [cancel].  (dbt's
    own exceptions print a heading before their message; nothing here
    takes [str] of one.) *)
Fixpoint exc_str (e : exc) : string :=
  match e with
  | MkExc _ a _ =>
      match a with
      | ArgStr s => s
      | ArgExc e' => exc_str e'
      end
  end.

Definition AttributeError (attr : string) : exc :=
  MkExc Exception
    (ArgStr ("'NoneType' object has no attribute '" ++ attr ++ "'")) NoCause.

Inductive result (A : Type) : Type :=
| Ok (a : A)
| Raise (e : exc).
Arguments Ok {A} a.
Arguments Raise {A} e.

(** PEP 479: a StopIteration that escapes a generator is replaced by a
    RuntimeError that has it as cause. *)
Definition pep479 (e : exc) : exc :=
  if isinstance e StopIteration then
    MkExc RuntimeError (ArgStr "generator raised StopIteration") (CausedBy e)
  else e.

(** How the generator function of a context manager ends after the
    exception of the block was thrown in: by that same exception (raised
    again, or caught by no clause), or by a new exception raised from
    it. *)
Inductive gen_end : Type :=
| Reraised
| RaisedFrom (new : exc).

(* ================================================================= *)
(** ** The connection object and the outside world *)

(** The host tool's [Connection]: the fields the manager reads or writes.
    [state] holds the strings the code compares and assigns. *)
Record DBTConnection (Handle : Type) : Type := {
  name : option string;
  state : string;
  handle : option Handle;
  transaction_open : bool;
  credentials : OracleAdapterCredentials
}.
Arguments name {Handle} _.
Arguments state {Handle} _.
Arguments handle {Handle} _.
Arguments transaction_open {Handle} _.
Arguments credentials {Handle} _.

Definition set_handle {Handle} (c : DBTConnection Handle) (h : option Handle)
  : DBTConnection Handle :=
  {| name := name c; state := state c; handle := h;
     transaction_open := transaction_open c; credentials := credentials c |}.

Definition set_state {Handle} (c : DBTConnection Handle) (s : string)
  : DBTConnection Handle :=
  {| name := name c; state := s; handle := handle c;
     transaction_open := transaction_open c; credentials := credentials c |}.

Definition set_transaction_open {Handle} (c : DBTConnection Handle) (b : bool)
  : DBTConnection Handle :=
  {| name := name c; state := state c; handle := handle c;
     transaction_open := b; credentials := credentials c |}.

(** Everything the manager calls and does not define.  The driver
    ([cx_*]) acts on the world only; the host tool's [begin] and
    [release] also reach the thread's connection object.  Any of them may
    raise.  [format_elapsed now pre] is the text of [now - pre] under the
    format [0.2f]. *)
Record Externals : Type := {
  World : Type;
  Handle : Type;
  Cursor : Type;
  Bindings : Type;
  Time : Type;
  cx_connect :
    string -> string -> option string -> string -> World ->
    result Handle * World;
  cx_cursor : Handle -> World -> result Cursor * World;
  cx_execute :
    Cursor -> string -> option Bindings -> World -> result unit * World;
  cx_commit : Handle -> World -> result unit * World;
  cx_close : option Handle -> World -> result unit * World;
  host_begin :
    DBTConnection Handle * World ->
    result unit * (DBTConnection Handle * World);
  host_release :
    DBTConnection Handle * World ->
    result unit * (DBTConnection Handle * World);
  time_time : World -> Time * World;
  format_elapsed : Time -> Time -> string
}.

Inductive log_level : Type :=
| DEBUG
| INFO
| ERROR.

Record HookInfo : Type := {
  msg : string;
  code : string
}.

Definition mkHookInfo (m : string) : HookInfo := {| msg := m; code := "E040" |}.

Definition message (self : HookInfo) : string := msg self ++ ".".

Record DummyResponse : Type := { _message : string }.

(** The dataclass [repr], as [str.format] prints a [DummyResponse]
    (exact for a message that needs no escaping, as the only one built
    here). *)
Definition str_DummyResponse (r : DummyResponse) : string :=
  "DummyResponse(_message='" ++ _message r ++ "')".

(* ================================================================= *)
(** ** The manager's monad *)

Section Manager.

Variable E : Externals.

Local Abbreviation Conn := (DBTConnection (Handle E)).

(** The calls the manager makes, in the order it makes them.  A call is
    recorded when it is made, whether it returns or raises. *)
Inductive event : Type :=
| Log (level : log_level) (text : string)
| FireEvent (info : HookInfo)
| Connect (usr pwd : string) (dsn : option string) (encoding : string)
| NewCursor (h : Handle E)
| Execute (c : Cursor E) (sql : string) (bindings : option (Bindings E))
| Commit (h : Handle E)
| Close (h : option (Handle E))
| Begin
| Release.

(** The thread's connection object, the world behind the driver and the
    host tool, and the trace of calls so far (oldest first). *)
Record State : Type := {
  st_conn : Conn;
  st_world : World E;
  st_trace : list event
}.

(** A computation reads and writes the state and returns or raises; what
    it wrote before raising stays written. *)
Definition M (A : Type) : Type := State -> result A * State.

Definition ret {A} (a : A) : M A := fun s => (Ok a, s).

Definition bind {A B} (m : M A) (k : A -> M B) : M B :=
  fun s =>
    match m s with
    | (Ok a, s') => k a s'
    | (Raise e, s') => (Raise e, s')
    end.

Definition raise {A} (e : exc) : M A := fun s => (Raise e, s).

(** [try: m  except: h e], where [h] re-raises what no clause matches. *)
Definition try_except {A} (m : M A) (h : exc -> M A) : M A :=
  fun s =>
    match m s with
    | (Ok a, s') => (Ok a, s')
    | (Raise e, s') => h e s'
    end.

Local Notation "x <- m ;; k" := (bind m (fun x => k))
  (at level 61, m at next level, right associativity).
Local Notation "m ;; k" := (bind m (fun _ => k))
  (at level 61, right associativity).

Definition emit (ev : event) : M unit :=
  fun s =>
    (Ok tt, {| st_conn := st_conn s; st_world := st_world s;
               st_trace := st_trace s ++ [ev] |}).

(** An attribute read on the connection object: the field as it is now. *)
Definition conn_get {A} (f : Conn -> A) : M A :=
  fun s => (Ok (f (st_conn s)), s).

(** An attribute write on the connection object. *)
Definition conn_set (f : Conn -> Conn) : M unit :=
  fun s =>
    (Ok tt, {| st_conn := f (st_conn s); st_world := st_world s;
               st_trace := st_trace s |}).

(** A call into the driver. *)
Definition call_driver {A} (ev : event) (f : World E -> result A * World E)
  : M A :=
  fun s =>
    let (r, w) := f (st_world s) in
    (r, {| st_conn := st_conn s; st_world := w;
           st_trace := st_trace s ++ [ev] |}).

(** A call into the host tool. *)
Definition call_host {A} (ev : event)
  (f : Conn * World E -> result A * (Conn * World E)) : M A :=
  fun s =>
    let (r, cw) := f (st_conn s, st_world s) in
    (r, {| st_conn := fst cw; st_world := snd cw;
           st_trace := st_trace s ++ [ev] |}).

Definition logger (level : log_level) (text : string) : M unit :=
  emit (Log level text).

Definition fire_event (info : HookInfo) : M unit := emit (FireEvent info).

Definition begin : M unit := call_host Begin (host_begin E).

Definition release : M unit := call_host Release (host_release E).

Definition time_now : M (Time E) :=
  fun s =>
    let (t, w) := time_time E (st_world s) in
    (Ok t, {| st_conn := st_conn s; st_world := w;
              st_trace := st_trace s |}).

(** [connection.handle.cursor()]; on a null handle the attribute lookup
    fails. *)
Definition handle_cursor : M (Cursor E) :=
  h <- conn_get handle ;;
  match h with
  | Some h => call_driver (NewCursor h) (cx_cursor E h)
  | None => raise (AttributeError "cursor")
  end.

(** [connection.handle.commit()] *)
Definition handle_commit : M unit :=
  h <- conn_get handle ;;
  match h with
  | Some h => call_driver (Commit h) (cx_commit E h)
  | None => raise (AttributeError "commit")
  end.

Definition cursor_execute (c : Cursor E) (sql : string)
  (bindings : option (Bindings E)) : M unit :=
  call_driver (Execute c sql bindings) (cx_execute E c sql bindings).

(* ================================================================= *)
(** ** OracleAdapterConnectionManager *)

Definition TYPE : string := "oracle".

Definition get_credentials (credentials : OracleAdapterCredentials)
  : OracleAdapterCredentials := credentials.

Definition open : M Conn :=
  st <- conn_get state ;;
  if st =? "open" then
    logger DEBUG "Connection is already open, skipping open." ;;
    conn_get (fun c => c)
  else
    credentials <- conn_get (fun c => get_credentials (credentials c)) ;;
    let method := connection_method credentials in
    let dsn := get_dsn credentials in
    logger DEBUG
      ("Attempting to connect using Oracle method: '" ++ str_method method
       ++ "' and dsn: '" ++ format_opt_str dsn ++ "'") ;;
    try_except
      (handle <- call_driver
                   (Connect (user credentials) (password credentials) dsn
                      "UTF-8")
                   (cx_connect E (user credentials) (password credentials)
                      dsn "UTF-8") ;;
       conn_set (fun c => set_handle c (Some handle)) ;;
       conn_set (fun c => set_state c "open"))
      (fun e =>
         if isinstance e cx_DatabaseError then
           logger INFO
             ("Got an error when attempting to open an Oracle connection: '"
              ++ exc_str e ++ "'") ;;
           conn_set (fun c => set_handle c None) ;;
           conn_set (fun c => set_state c "fail") ;;
           raise (MkExc dbt_FailedToConnectException (ArgStr (exc_str e))
                    NoCause)
         else raise e) ;;
    conn_get (fun c => c).

Definition cancel : M unit :=
  connection_name <- conn_get name ;;
  oracle_connection <- conn_get handle ;;
  logger INFO
    ("Cancelling query '" ++ format_opt_str connection_name ++ "' ") ;;
  try_except
    (call_driver (Close oracle_connection) (cx_close E oracle_connection))
    (fun e =>
       if isinstance e Exception then
         logger ERROR "Error closing connection for cancel request" ;;
         raise (MkExc Exception (ArgStr (exc_str e)) NoCause)
       else raise e) ;;
  logger INFO ("Canceled query '" ++ format_opt_str connection_name ++ "'").

Definition get_status (cursor : Cursor E) : DummyResponse :=
  {| _message := "OK" |}.

Definition get_response (cursor : Cursor E) : DummyResponse :=
  {| _message := "OK" |}.

(** The generator function under [@contextmanager], from the point where
    the exception [e] of the block is thrown in at its [yield]: the two
    [except] clauses in their order.  An exception of a call made inside
    a clause escapes the generator as it is (the raising result of the
    computation); the [raise] statements of the clauses end it with
    [Reraised] or [RaisedFrom]. *)
Definition except_clauses (sql : string) (e : exc) : M gen_end :=
  if isinstance e cx_DatabaseError then
    logger ERROR ("Oracle error: " ++ exc_str e) ;;
    try_except release
      (fun e' =>
         if isinstance e' cx_Error then
           logger ERROR "Failed to release connection!"
         else raise e') ;;
    ret (RaisedFrom
           (MkExc dbt_DatabaseException (ArgStr (sql ++ strip (exc_str e)))
              (CausedBy e)))
  else if isinstance e Exception then
    logger ERROR "Rolling back transaction." ;;
    release ;;
    if isinstance e dbt_RuntimeException then ret Reraised
    else ret (RaisedFrom
                (MkExc dbt_RuntimeException (ArgExc e) (CausedBy e)))
  else ret Reraised.

(** [@contextmanager]: the block runs at the generator's [yield].  When
    the block raises [value], it is thrown into the generator, and what
    leaves the [with] statement is decided by how the generator ends:
    an exception that escapes it is subject to PEP 479; the exception
    thrown in, raised again, leaves as it is; a new exception raised
    from it leaves in its place, unless it is a RuntimeError raised from
    a StopIteration, which contextlib takes for the work of PEP 479 and
    drops, so that the StopIteration leaves. *)
Definition contextmanager {A} (generator : exc -> M gen_end) (body : M A)
  : M A :=
  try_except body
    (fun value =>
       g <- try_except (generator value) (fun e' => raise (pep479 e')) ;;
       match g with
       | Reraised => raise value
       | RaisedFrom new =>
           if isinstance new StopIteration then raise (pep479 new)
           else if isinstance new RuntimeError
                   && isinstance value StopIteration then raise value
           else raise new
       end).

Definition exception_handler {A} (sql : string) (body : M A) : M A :=
  contextmanager (except_clauses sql) body.

(** The text of the statement as [add_query] logs it. *)
Definition log_sql_of (abridge_sql_log : bool) (sql : string) : string :=
  if abridge_sql_log then substring 0 512 sql ++ "..." else sql.

(** The block of [add_query] that runs inside the exception handler. *)
Definition add_query_body (sql : string) (bindings : Bindings E)
  (abridge_sql_log : bool) : M (Conn * Cursor E) :=
  let log_sql := log_sql_of abridge_sql_log sql in
  debug <- conn_get (fun c => debug_log_commands (credentials c)) ;;
  (if truthy_bool debug then
     connection_name <- conn_get name ;;
     fire_event
       (mkHookInfo
          ("On " ++ format_opt_str connection_name ++ ": " ++ log_sql))
   else ret tt) ;;
  pre <- time_now ;;
  cursor <- handle_cursor ;;
  precode <- conn_get (fun c => cursor_precode (credentials c)) ;;
  (if truthy_str precode then
     cursor_execute cursor (format_opt_str precode) None
   else ret tt) ;;
  cursor_execute cursor sql (Some bindings) ;;
  handle_commit ;;
  debug' <- conn_get (fun c => debug_log_commands (credentials c)) ;;
  (if truthy_bool debug' then
     let status := get_status cursor in
     now <- time_now ;;
     fire_event
       (mkHookInfo
          ("SQL status: " ++ str_DummyResponse status ++ " in "
           ++ format_elapsed E now pre ++ " seconds"))
   else ret tt) ;;
  connection <- conn_get (fun c => c) ;;
  ret (connection, cursor).

Definition add_query (sql : string) (auto_begin : bool)
  (bindings : Bindings E) (abridge_sql_log : bool) : M (Conn * Cursor E) :=
  transaction_open <- conn_get transaction_open ;;
  (if auto_begin && negb transaction_open then begin else ret tt) ;;
  connection_name <- conn_get name ;;
  logger DEBUG
    ("Using " ++ TYPE ++ " connection " ++ dquote
     ++ format_opt_str connection_name ++ dquote ++ ".") ;;
  exception_handler sql (add_query_body sql bindings abridge_sql_log).

(** What [add_begin_query] returns as its cursor: the handle's [cursor]
    method, bound and not called. *)
Inductive bound_method : Type :=
| cursor_of (h : Handle E).

Definition add_begin_query : M (Conn * bound_method) :=
  h <- conn_get handle ;;
  match h with
  | Some h => connection <- conn_get (fun c => c) ;;
              ret (connection, cursor_of h)
  | None => raise (AttributeError "cursor")
  end.

End Manager.

Arguments Log {E} level text.
Arguments FireEvent {E} info.
Arguments Connect {E} usr pwd dsn encoding.
Arguments NewCursor {E} h.
Arguments Execute {E} c sql bindings.
Arguments Commit {E} h.
Arguments Close {E} h.
Arguments Begin {E}.
Arguments Release {E}.
Arguments st_conn {E} _.
Arguments st_world {E} _.
Arguments st_trace {E} _.
Arguments Build_State {E} _ _ _.
Arguments ret {E A} a.
Arguments raise {E A} e.
Arguments bind {E A B} m k.
Arguments try_except {E A} m h.
Arguments contextmanager {E A} generator body.
Arguments exception_handler {E A} sql body.

(* ================================================================= *)
(** ** A scripted world

    A driver and host tool whose every call has a fixed outcome: handles
    and cursors are numbers, the world is a clock that every call
    advances, [begin] and [release] set and clear the connection's
    transaction flag.  The concrete runs below are taken in it. *)

Record script : Type := {
  on_connect : result nat;
  on_cursor : result nat;
  on_execute : string -> result unit;
  on_commit : result unit;
  on_close : result unit;
  on_begin : result unit;
  on_release : result unit
}.

Definition scripted (s : script) : Externals :=
  {| World := nat;
     Handle := nat;
     Cursor := nat;
     Bindings := list string;
     Time := nat;
     cx_connect := fun _ _ _ _ w => (on_connect s, S w);
     cx_cursor := fun _ w => (on_cursor s, S w);
     cx_execute := fun _ sql _ w => (on_execute s sql, S w);
     cx_commit := fun _ w => (on_commit s, S w);
     cx_close := fun _ w => (on_close s, S w);
     host_begin := fun cw =>
       (on_begin s, (set_transaction_open (fst cw) true, S (snd cw)));
     host_release := fun cw =>
       (on_release s, (set_transaction_open (fst cw) false, S (snd cw)));
     time_time := fun w => (w, S w);
     format_elapsed := fun now pre => str_int (Z.of_nat (now - pre)) ++ ".00"
  |}.

(** Every call succeeds. *)
Definition all_ok : script :=
  {| on_connect := Ok 7; on_cursor := Ok 3; on_execute := fun _ => Ok tt;
     on_commit := Ok tt; on_close := Ok tt; on_begin := Ok tt;
     on_release := Ok tt |}.

Definition ORA_00942 : exc :=
  MkExc cx_DatabaseError (ArgStr "ORA-00942: table or view does not exist")
    NoCause.

Definition ORA_12541 : exc :=
  MkExc cx_DatabaseError (ArgStr "ORA-12541: TNS:no listener") NoCause.

Definition DPI_1010 : exc :=
  MkExc cx_Error (ArgStr "DPI-1010: not connected") NoCause.

Definition broken_pipe : exc :=
  MkExc Exception (ArgStr "Broken pipe") NoCause.


Definition compilation_error : exc :=
  MkExc dbt_RuntimeException (ArgStr "Compilation Error in model m")
    NoCause.

Definition with_connect (s : script) (r : result nat) : script :=
  {| on_connect := r; on_cursor := on_cursor s; on_execute := on_execute s;
     on_commit := on_commit s; on_close := on_close s;
     on_begin := on_begin s; on_release := on_release s |}.

Definition with_execute (s : script) (r : string -> result unit) : script :=
  {| on_connect := on_connect s; on_cursor := on_cursor s; on_execute := r;
     on_commit := on_commit s; on_close := on_close s;
     on_begin := on_begin s; on_release := on_release s |}.

Definition with_release (s : script) (r : result unit) : script :=
  {| on_connect := on_connect s; on_cursor := on_cursor s;
     on_execute := on_execute s; on_commit := on_commit s;
     on_close := on_close s; on_begin := on_begin s; on_release := r |}.

Definition missing_table : string := "SELECT * FROM missing".

(** The driver rejects the statement [missing_table] and runs any other. *)
Definition rejects_missing_table (e : exc) (q : string) : result unit :=
  if q =? missing_table then Raise e else Ok tt.

Definition statement_fails : script :=
  with_execute all_ok (rejects_missing_table ORA_00942).

(** The statement fails in the driver and release fails outside it. *)
Definition release_breaks : script :=
  with_release statement_fails (Raise broken_pipe).



Definition stop_iteration : exc := MkExc StopIteration (ArgStr "") NoCause.

(** The statement ends in a StopIteration. *)
Definition statement_stops : script :=
  with_execute all_ok (rejects_missing_table stop_iteration).


Definition example_credentials : OracleAdapterCredentials :=
  {| database := "ORCL"; schema := "analytics"; user := "dbt";
     password := "secret"; port := default_port;
     host := Some "db.example.com"; service := None;
     connection_string := None; debug_log_commands := Some true;
     cursor_precode := Some "ALTER SESSION SET CURRENT_SCHEMA = analytics" |}.

Definition example_connection (st : string) (h : option nat)
  : DBTConnection nat :=
  {| name := Some "model.m"; state := st; handle := h;
     transaction_open := false; credentials := example_credentials |}.

Definition example_state (s : script) (st : string) (h : option nat)
  : State (scripted s) :=
  {| st_conn := example_connection st h : DBTConnection (Handle (scripted s));
     st_world := 0%nat : World (scripted s);
     st_trace := [] |}.

(* ================================================================= *)
(** ** Statements used by the theorems *)

(** A configured, non-empty optional string: what the truth test of the
    code accepts. *)
Definition nonempty (o : option string) : Prop :=
  exists s, o = Some s /\ s <> "".

(** Two credentials that agree on every field except, possibly, the
    password. *)
Definition same_but_password (c1 c2 : OracleAdapterCredentials) : Prop :=
  database c1 = database c2 /\ schema c1 = schema c2 /\ user c1 = user c2 /\
  port c1 = port c2 /\ host c1 = host c2 /\ service c1 = service c2 /\
  connection_string c1 = connection_string c2 /\
  debug_log_commands c1 = debug_log_commands c2 /\
  cursor_precode c1 = cursor_precode c2.

(** The state [s] after the events [evs]. *)
Definition logged {E} (s : State E) (evs : list (event E)) : State E :=
  {| st_conn := st_conn s; st_world := st_world s;
     st_trace := st_trace s ++ evs |}.

(** The state [s] after the events [evs], the last of which left the
    connection and the world as [cw]. *)
Definition moved {E} (s : State E)
  (cw : DBTConnection (Handle E) * World E) (evs : list (event E))
  : State E :=
  {| st_conn := fst cw; st_world := snd cw; st_trace := st_trace s ++ evs |}.

(** The events of a run of [add_query] that returns, on the connection
    [c] with the cursor [cur]: the statement log and the status log (both
    only under [debug_log_commands]) and the run of the cursor precode
    (only when one is configured). *)
Definition using_log {E} (c : DBTConnection (Handle E)) : event E :=
  Log DEBUG
    ("Using " ++ TYPE ++ " connection " ++ dquote
     ++ format_opt_str (name c) ++ dquote ++ ".").

Definition statement_log {E} (c : DBTConnection (Handle E))
  (abridge_sql_log : bool) (sql : string) : list (event E) :=
  if truthy_bool (debug_log_commands (credentials c)) then
    [FireEvent
       (mkHookInfo
          ("On " ++ format_opt_str (name c) ++ ": "
           ++ log_sql_of abridge_sql_log sql))]
  else [].

Definition precode_run {E} (c : DBTConnection (Handle E)) (cur : Cursor E)
  : list (event E) :=
  match cursor_precode (credentials c) with
  | Some p => if p =? "" then [] else [Execute cur p None]
  | None => []
  end.

Definition status_log {E} (c : DBTConnection (Handle E)) (elapsed : string)
  : list (event E) :=
  if truthy_bool (debug_log_commands (credentials c)) then
    [FireEvent
       (mkHookInfo
          ("SQL status: DummyResponse(_message='OK') in " ++ elapsed
           ++ " seconds"))]
  else [].

(** [begin] is called exactly when [auto_begin] is set and the
    connection has no transaction open. *)
Definition begun {E} (auto_begin : bool) (c : DBTConnection (Handle E))
  : list (event E) :=
  if auto_begin && negb (transaction_open c) then [Begin] else [].

Definition any_event {E} (ev : event E) : Prop := True.

(** The host tool's [begin] as [add_query] calls it: only when it is
    due; otherwise connection and world stay as they are. *)
Definition begin_when_due (E : Externals) (auto_begin : bool)
  (cw : DBTConnection (Handle E) * World E)
  : result unit * (DBTConnection (Handle E) * World E) :=
  if auto_begin && negb (transaction_open (fst cw)) then host_begin E cw
  else (Ok tt, cw).

(** The driver's execute of the cursor precode as [add_query] calls it:
    only when a precode is configured. *)
Definition precode_when_set (E : Externals) (c : DBTConnection (Handle E))
  (cur : Cursor E) (w : World E) : result unit * World E :=
  match cursor_precode (credentials c) with
  | Some p => if p =? "" then (Ok tt, w) else cx_execute E cur p None w
  | None => (Ok tt, w)
  end.

(** The world after the status line: the clock is read for it only
    under [debug_log_commands]. *)
Definition world_after_status (E : Externals)
  (c : DBTConnection (Handle E)) (w : World E) : World E :=
  if truthy_bool (debug_log_commands (credentials c))
  then snd (time_time E w) else w.

(** The call [open] makes to the driver in the state [s], and what the
    trace shows of the attempt. *)
Definition connect_call {E} (s : State E) : result (Handle E) * World E :=
  let c := get_credentials (credentials (st_conn s)) in
  cx_connect E (user c) (password c) (get_dsn c) "UTF-8" (st_world s).

Definition connect_attempt {E} (s : State E) : list (event E) :=
  let c := get_credentials (credentials (st_conn s)) in
  [Log DEBUG
     ("Attempting to connect using Oracle method: '"
      ++ str_method (connection_method c) ++ "' and dsn: '"
      ++ format_opt_str (get_dsn c) ++ "'");
   Connect (user c) (password c) (get_dsn c) "UTF-8"].

(** The connection [c] after a failed open. *)
Definition failed {Handle} (c : DBTConnection Handle) : DBTConnection Handle :=
  set_state (set_handle c None) "fail".

Definition no_listener : script := with_connect all_ok (Raise ORA_12541).

(** The driver fails to connect with an error that is not a database
    error. *)
Definition not_connected : script := with_connect all_ok (Raise DPI_1010).

Definition is_connect {E} (ev : event E) : bool :=
  match ev with
  | Connect _ _ _ _ => true
  | _ => false
  end.

(** How many handles a trace created (or tried to). *)
Definition connects {E} (t : list (event E)) : nat :=
  length (filter is_connect t).


(** A small program logic for the manager's monad: [sound T Q m] says
    that every run of [m] takes a state to one related to it by [T], and
    raises only exceptions that satisfy [Q]. *)
Definition sound {E A} (T : State E -> State E -> Prop) (Q : exc -> Prop)
  (m : M E A) : Prop :=
  forall s, T s (snd (m s)) /\ (forall e, fst (m s) = Raise e -> Q e).

Record preorder {E} (T : State E -> State E -> Prop) : Prop := {
  pre_refl : forall s, T s s;
  pre_trans : forall s1 s2 s3, T s1 s2 -> T s2 s3 -> T s1 s3
}.

(** [s'] extends the trace of [s] by events that all satisfy [P]. *)
Definition extends_with {E} (P : event E -> Prop) (s s' : State E) : Prop :=
  exists d, st_trace s' = (st_trace s ++ d)%list /\ Forall P d.

(** An [execute] that carries bindings is the main statement: the text
    and the bindings [add_query] was given. *)
Definition runs_in_full {E} (sql : string) (bindings : Bindings E)
  (ev : event E) : Prop :=
  match ev with
  | Execute _ q (Some b) => q = sql /\ b = bindings
  | _ => True
  end.

Definition any_exc (e : exc) : Prop := True.

Definition not_connection_failure (e : exc) : Prop :=
  isinstance e dbt_FailedToConnectException = false.

(** The connection is in state fail after only if it was before. *)
Definition fail_only_kept {E} (s s' : State E) : Prop :=
  state (st_conn s') = "fail" -> state (st_conn s) = "fail".

(** The host tool's [begin] and [release] never put a connection in
    state fail. *)
Definition host_sets_no_fail (E : Externals) : Prop :=
  forall cw,
    (state (fst (snd (host_begin E cw))) = "fail" ->
     state (fst cw) = "fail") /\
    (state (fst (snd (host_release E cw))) = "fail" ->
     state (fst cw) = "fail").

(** Nothing the manager calls raises a FailedToConnectException of its
    own. *)
Definition externals_raise_no_connection_failure (E : Externals) : Prop :=
  (forall u p d enc w e,
     fst (cx_connect E u p d enc w) = Raise e -> not_connection_failure e) /\
  (forall h w e,
     fst (cx_cursor E h w) = Raise e -> not_connection_failure e) /\
  (forall c q b w e,
     fst (cx_execute E c q b w) = Raise e -> not_connection_failure e) /\
  (forall h w e,
     fst (cx_commit E h w) = Raise e -> not_connection_failure e) /\
  (forall cw e,
     fst (host_begin E cw) = Raise e -> not_connection_failure e) /\
  (forall cw e,
     fst (host_release E cw) = Raise e -> not_connection_failure e).

(** The driver cannot close the handle. *)
Definition close_fails : script :=
  {| on_connect := on_connect all_ok; on_cursor := on_cursor all_ok;
     on_execute := on_execute all_ok; on_commit := on_commit all_ok;
     on_close := Raise ORA_12541; on_begin := on_begin all_ok;
     on_release := on_release all_ok |}.

(** The host tool cannot begin a transaction. *)
Definition begin_fails : script :=
  {| on_connect := on_connect all_ok; on_cursor := on_cursor all_ok;
     on_execute := on_execute all_ok; on_commit := on_commit all_ok;
     on_close := on_close all_ok; on_begin := Raise compilation_error;
     on_release := on_release all_ok |}.

(** The driver rejects every statement. *)
Definition rejects_all : script :=
  with_execute all_ok (fun _ => Raise ORA_00942).

(** A driver error whose message is padded with whitespace. *)
Definition ORA_padded : exc :=
  MkExc cx_DatabaseError
    (ArgStr (String (ascii_of_nat 10) " ORA-00942: no such table  "))
    NoCause.

(** Two credentials that agree on every field the DSN can read except,
    possibly, the port and the service. *)
Definition same_but_port_service (c1 c2 : OracleAdapterCredentials) : Prop :=
  database c1 = database c2 /\ host c1 = host c2 /\
  connection_string c1 = connection_string c2.

(** A string made of whitespace only (the empty string included). *)
Fixpoint blank (s : string) : bool :=
  match s with
  | EmptyString => true
  | String a s' => isspace a && blank s'
  end.

(** The first and the last character of a string, if any. *)
Definition first_char (s : string) : option ascii :=
  match s with
  | EmptyString => None
  | String a _ => Some a
  end.

Fixpoint last_char (s : string) : option ascii :=
  match s with
  | EmptyString => None
  | String a s' =>
      match last_char s' with
      | Some b => Some b
      | None => Some a
      end
  end.

Definition is_release {E} (ev : event E) : bool :=
  match ev with
  | Release => true
  | _ => false
  end.

(** How many times a trace called release. *)
Definition releases {E} (t : list (event E)) : nat :=
  length (filter is_release t).

(** The events [open] may produce: log lines and the driver's connect. *)
Definition log_or_connect {E} (ev : event E) : Prop :=
  match ev with
  | Log _ _ | Connect _ _ _ _ => True
  | _ => False
  end.

(** The events [cancel] may produce: log lines and the driver's close. *)
Definition log_or_close {E} (ev : event E) : Prop :=
  match ev with
  | Log _ _ | Close _ => True
  | _ => False
  end.

(** The events that are not a call of the driver's connect or close. *)
Definition no_connect_or_close {E} (ev : event E) : Prop :=
  match ev with
  | Connect _ _ _ _ | Close _ => False
  | _ => True
  end.

Definition not_commit {E} (ev : event E) : Prop :=
  match ev with
  | Commit _ => False
  | _ => True
  end.

(** The driver rejects the statement [sql] with the bindings [b],
    whatever the cursor and the world. *)
Definition driver_rejects (E : Externals) (sql : string) (b : Bindings E)
  : Prop :=
  forall c w, exists e, fst (cx_execute E c sql (Some b) w) = Raise e.

(* ================================================================= *)
(** * Credentials: method inference and DSN *)

Lemma truthy_str_nonempty (o : option string) :
  truthy_str o = true <-> nonempty o.
Proof.
  unfold nonempty; destruct o as [s|]; simpl.
  - destruct (String.eqb_spec s ""); simpl; split.
    + discriminate.
    + intros (s' & Hs & Hne); injection Hs as <-; contradiction.
    + intros _; exists s; auto.
    + reflexivity.
  - split; [discriminate | intros (s & Hs & _); discriminate].
Qed.

Lemma truthy_str_false (o : option string) :
  truthy_str o = false <-> ~ nonempty o.
Proof.
  rewrite <- truthy_str_nonempty.
  destruct (truthy_str o); split; intro H; try reflexivity;
    try discriminate; try (exfalso; apply H; reflexivity).
Qed.

Lemma truthy_str_some (o : option string) :
  truthy_str o = true -> exists s, o = Some s /\ s <> "".
Proof. apply truthy_str_nonempty. Qed.

(** [get_dsn] always returns a string, never [None]. *)
Lemma get_dsn_is_str (c : OracleAdapterCredentials) :
  exists d, get_dsn c = Some d.
Proof.
  unfold get_dsn, connection_method.
  destruct (truthy_str (connection_string c)) eqn:Hcs.
  - apply truthy_str_some in Hcs as (s & -> & _); eauto.
  - destruct (truthy_str (host c)); eauto.
Qed.

(** C1. For every credentials value [connection_method] selects one
    method by a fixed priority: CONNECTION_STRING when the connection
    string is non-empty, else HOST when the host is non-empty, else TNS;
    and the choice is a function of those two fields alone. *)
Theorem connection_method_priority (c : OracleAdapterCredentials) :
  (nonempty (connection_string c) ->
   connection_method c = CONNECTION_STRING) /\
  (~ nonempty (connection_string c) -> nonempty (host c) ->
   connection_method c = HOST) /\
  (~ nonempty (connection_string c) -> ~ nonempty (host c) ->
   connection_method c = TNS) /\
  (forall c' : OracleAdapterCredentials,
     connection_string c' = connection_string c -> host c' = host c ->
     connection_method c' = connection_method c).
Proof.
  unfold connection_method; repeat split.
  - intros H; apply truthy_str_nonempty in H; now rewrite H.
  - intros H1 H2; apply truthy_str_false in H1;
      apply truthy_str_nonempty in H2; now rewrite H1, H2.
  - intros H1 H2; apply truthy_str_false in H1, H2; now rewrite H1, H2.
  - intros c' -> ->; reflexivity.
Qed.

Lemma connection_method_priority_witness :
  connection_method example_credentials = HOST /\
  connection_method (with_password example_credentials "other") = HOST.
Proof.
  split.
  - apply (proj1 (proj2 (connection_method_priority example_credentials))).
    + intros (s & H & _); discriminate H.
    + exists "db.example.com"; split; [reflexivity | discriminate].
  - apply eq_trans with (connection_method example_credentials).
    + apply (proj2 (proj2 (proj2
               (connection_method_priority example_credentials))));
        reflexivity.
    + reflexivity.
Defined.

(** C2. [get_dsn] returns the database field as it is under TNS, the
    connection-string field as it is under CONNECTION_STRING, and
    host:port/service under HOST, where the service is the configured
    service when it is set (to a non-empty string, the truth test of the
    code) and the database otherwise. *)
Theorem get_dsn_by_method (c : OracleAdapterCredentials) :
  (connection_method c = TNS -> get_dsn c = Some (database c)) /\
  (connection_method c = CONNECTION_STRING ->
   get_dsn c = connection_string c /\ nonempty (connection_string c)) /\
  (connection_method c = HOST ->
   exists h, host c = Some h /\
     (forall s, service c = Some s -> s <> "" ->
        get_dsn c =
        Some (h ++ ":" ++ format_opt_int (port c) ++ "/" ++ s)) /\
     (service c = None \/ service c = Some "" ->
        get_dsn c =
        Some (h ++ ":" ++ format_opt_int (port c) ++ "/" ++ database c))).
Proof.
  unfold get_dsn.
  destruct (connection_method c) eqn:Hm; repeat split; try discriminate.
  - intros _.
    unfold connection_method in Hm.
    destruct (truthy_str (connection_string c)); [discriminate|].
    destruct (truthy_str (host c)) eqn:Hh; [|discriminate].
    apply truthy_str_some in Hh as (h & Hh & _).
    exists h; rewrite Hh; simpl; repeat split; auto.
    + intros s -> Hs; simpl.
      destruct (String.eqb_spec s ""); [contradiction | reflexivity].
    + intros [-> | ->]; reflexivity.
  - unfold connection_method in Hm.
    destruct (truthy_str (connection_string c)) eqn:Hcs.
    + now apply truthy_str_nonempty.
    + destruct (truthy_str (host c)); discriminate.
Qed.

Lemma get_dsn_by_method_witness :
  get_dsn example_credentials = Some "db.example.com:1521/ORCL".
Proof.
  destruct (proj2 (proj2 (get_dsn_by_method example_credentials)))
    as (h & Hh & _ & Hdb); [reflexivity|].
  injection Hh as <-.
  apply Hdb; left; reflexivity.
Defined.

(** The examples of the specification. *)
Example get_dsn_connection_string :
  let c := {| database := "ORCL"; schema := "s"; user := "u";
              password := "p"; port := default_port; host := None;
              service := None; connection_string := Some "orcl_high";
              debug_log_commands := Some false; cursor_precode := None |} in
  connection_method c = CONNECTION_STRING /\ get_dsn c = Some "orcl_high".
Proof. split; reflexivity. Qed.

Example get_dsn_tns :
  let c := {| database := "ORCL"; schema := "s"; user := "u";
              password := "p"; port := default_port; host := None;
              service := None; connection_string := None;
              debug_log_commands := Some false; cursor_precode := None |} in
  connection_method c = TNS /\ get_dsn c = Some "ORCL".
Proof. split; reflexivity. Qed.

(** C8. Two credentials that differ only in the password resolve to the
    same method and the same address. *)
Theorem descriptor_ignores_password (c1 c2 : OracleAdapterCredentials) :
  same_but_password c1 c2 ->
  connection_method c1 = connection_method c2 /\ get_dsn c1 = get_dsn c2.
Proof.
  intros (Hdb & _ & _ & Hport & Hhost & Hsvc & Hcs & _ & _).
  unfold get_dsn, connection_method.
  rewrite Hdb, Hport, Hhost, Hsvc, Hcs; split; reflexivity.
Qed.

Lemma descriptor_ignores_password_witness :
  connection_method example_credentials =
  connection_method (with_password example_credentials "hunter2") /\
  get_dsn example_credentials =
  get_dsn (with_password example_credentials "hunter2").
Proof.
  apply (descriptor_ignores_password example_credentials
           (with_password example_credentials "hunter2")).
  unfold same_but_password; simpl; repeat split; reflexivity.
Defined.

(* ================================================================= *)
(** * The error-translation boundary *)

Ltac monad_unfold :=
  unfold exception_handler, contextmanager, except_clauses, handle_cursor,
    handle_commit, cursor_execute,
    release, begin, logger, fire_event, emit, call_host, call_driver,
    time_now, conn_get, conn_set, try_except, bind, ret, raise in *.

Ltac state_simpl := cbn [st_conn st_world st_trace fst snd] in *.

Lemma database_error_is_exception (e : exc) :
  isinstance e cx_DatabaseError = true -> isinstance e Exception = true.
Proof. unfold isinstance; destruct (exc_cls e); simpl; congruence. Qed.

Lemma database_error_is_no_stop (e : exc) :
  isinstance e cx_DatabaseError = true -> isinstance e StopIteration = false.
Proof. unfold isinstance; destruct (exc_cls e); simpl; congruence. Qed.

Lemma runtime_exception_is_no_stop (e : exc) :
  isinstance e dbt_RuntimeException = true ->
  isinstance e StopIteration = false.
Proof. unfold isinstance; destruct (exc_cls e); simpl; congruence. Qed.

Lemma pep479_other (e : exc) :
  isinstance e StopIteration = false -> pep479 e = e.
Proof. unfold pep479; now intros ->. Qed.


Section HandlerFacts.

Variable E : Externals.
Context {A : Type}.
Variables (sql : string) (body : M E A).

(** A block that returns leaves the handler as it came. *)
Lemma handler_returns (s s1 : State E) (a : A) :
  body s = (Ok a, s1) -> exception_handler sql body s = (Ok a, s1).
Proof. intros Hb; monad_unfold; now rewrite Hb. Qed.

(** The first clause: a driver database error. *)
Lemma handler_database_error (s s1 : State E) (e : exc) :
  body s = (Raise e, s1) -> isinstance e cx_DatabaseError = true ->
  exception_handler sql body s =
  match host_release E (st_conn s1, st_world s1) with
  | (Ok _, cw) =>
      (Raise (MkExc dbt_DatabaseException
                (ArgStr (sql ++ strip (exc_str e))) (CausedBy e)),
       moved s1 cw [Log ERROR ("Oracle error: " ++ exc_str e); Release])
  | (Raise e', cw) =>
      if isinstance e' cx_Error then
        (Raise (MkExc dbt_DatabaseException
                  (ArgStr (sql ++ strip (exc_str e))) (CausedBy e)),
         moved s1 cw [Log ERROR ("Oracle error: " ++ exc_str e); Release;
                      Log ERROR "Failed to release connection!"])
      else
        (Raise (pep479 e'),
         moved s1 cw [Log ERROR ("Oracle error: " ++ exc_str e); Release])
  end.
Proof.
  intros Hb He; pose proof (database_error_is_no_stop e He) as Hstop.
  monad_unfold; rewrite Hb, He; state_simpl.
  destruct (host_release E _) as [[u|e'] cw]; state_simpl.
  - rewrite Hstop, andb_false_r; cbn [isinstance exc_cls issubclass].
    unfold moved; rewrite <- !app_assoc; reflexivity.
  - destruct (isinstance e' cx_Error); state_simpl.
    + rewrite Hstop, andb_false_r; cbn [isinstance exc_cls issubclass].
      unfold moved; state_simpl; rewrite <- !app_assoc; reflexivity.
    + unfold moved; state_simpl; rewrite <- !app_assoc; reflexivity.
Qed.

(** The second clause: any other [Exception]. *)
Lemma handler_other_error (s s1 : State E) (e : exc) :
  body s = (Raise e, s1) ->
  isinstance e cx_DatabaseError = false -> isinstance e Exception = true ->
  exception_handler sql body s =
  match host_release E (st_conn s1, st_world s1) with
  | (Ok _, cw) =>
      (Raise (if isinstance e dbt_RuntimeException then e
              else if isinstance e StopIteration then e
              else MkExc dbt_RuntimeException (ArgExc e) (CausedBy e)),
       moved s1 cw [Log ERROR "Rolling back transaction."; Release])
  | (Raise e', cw) =>
      (Raise (pep479 e'),
       moved s1 cw [Log ERROR "Rolling back transaction."; Release])
  end.
Proof.
  intros Hb Hd He; monad_unfold; rewrite Hb, Hd, He; state_simpl.
  destruct (host_release E _) as [[u|e'] cw]; state_simpl.
  - destruct (isinstance e dbt_RuntimeException); state_simpl.
    + unfold moved; rewrite <- !app_assoc; reflexivity.
    + destruct (isinstance e StopIteration);
        cbn [isinstance exc_cls issubclass andb]; unfold moved;
        rewrite <- !app_assoc; reflexivity.
  - unfold moved; rewrite <- !app_assoc; reflexivity.
Qed.

(** No clause: what is not an [Exception] goes through, and nothing is
    released. *)
Lemma handler_base_exception (s s1 : State E) (e : exc) :
  body s = (Raise e, s1) -> isinstance e Exception = false ->
  exception_handler sql body s = (Raise e, s1).
Proof.
  intros Hb He.
  destruct (isinstance e cx_DatabaseError) eqn:Hd.
  - apply database_error_is_exception in Hd; congruence.
  - monad_unfold; rewrite Hb, Hd, He; reflexivity.
Qed.

(** The handler never turns an exception into a return. *)
Lemma handler_raises (s s1 : State E) (e : exc) :
  body s = (Raise e, s1) ->
  exists e' s', exception_handler sql body s = (Raise e', s').
Proof.
  intros Hb.
  destruct (isinstance e cx_DatabaseError) eqn:Hd.
  - rewrite (handler_database_error _ _ _ Hb Hd).
    destruct (host_release E _) as [[u|e'] cw]; [eauto|].
    destruct (isinstance e' cx_Error); eauto.
  - destruct (isinstance e Exception) eqn:He.
    + rewrite (handler_other_error _ _ _ Hb Hd He).
      destruct (host_release E _) as [[u|e'] cw]; eauto.
    + rewrite (handler_base_exception _ _ _ Hb He); eauto.
Qed.

End HandlerFacts.

(** C3, as the code has it. When the block raises a cx_Oracle
    DatabaseError, the handler logs it and calls release; if release
    returns, or raises a driver error (cx_Oracle.Error), which is only
    logged, the handler raises a DatabaseException whose message is the
    SQL text followed by the stripped driver message and whose cause is
    the driver error; a release failure of any other type is not caught
    and propagates in place of it (as itself, or, for a StopIteration,
    as the RuntimeError that PEP 479 makes of it). *)
Theorem driver_error_translation (E : Externals) (A : Type) (sql : string)
  (body : M E A) (s s1 : State E) (e : exc) :
  body s = (Raise e, s1) -> isinstance e cx_DatabaseError = true ->
  let attempt := [Log ERROR ("Oracle error: " ++ exc_str e); Release] in
  let failure :=
    MkExc dbt_DatabaseException (ArgStr (sql ++ strip (exc_str e)))
      (CausedBy e) in
  let r := host_release E (st_conn s1, st_world s1) in
  (forall u, fst r = Ok u ->
     exception_handler sql body s = (Raise failure, moved s1 (snd r) attempt))
  /\
  (forall e', fst r = Raise e' -> isinstance e' cx_Error = true ->
     exception_handler sql body s =
     (Raise failure,
      moved s1 (snd r)
        (attempt ++ [Log ERROR "Failed to release connection!"])))
  /\
  (forall e', fst r = Raise e' -> isinstance e' cx_Error = false ->
     exception_handler sql body s =
     (Raise (pep479 e'), moved s1 (snd r) attempt) /\
     (isinstance e' StopIteration = false -> pep479 e' = e'))
  /\
  exc_str failure = sql ++ strip (exc_str e) /\
  isinstance failure dbt_DatabaseException = true.
Proof.
  intros Hb He; cbv zeta.
  rewrite (handler_database_error E sql body s s1 e Hb He).
  destruct (host_release E _) as [[u|e'] cw]; simpl fst; simpl snd;
    repeat split; try discriminate.
  - intros e'' [= <-] He'; now rewrite He'.
  - match goal with
    | Hr : Raise _ = Raise _, Hc : isinstance _ cx_Error = false |- _ =>
        injection Hr as <-; now rewrite Hc
    end.
  - apply pep479_other.
Qed.

Lemma driver_error_translation_witness :
  fst (exception_handler missing_table
         (add_query_body (scripted statement_fails) missing_table [] false)
         (example_state statement_fails "open" (Some 7))) =
  Raise (MkExc dbt_DatabaseException
           (ArgStr
              "SELECT * FROM missingORA-00942: table or view does not exist")
           (CausedBy ORA_00942)).
Proof.
  pose proof
    (driver_error_translation (scripted statement_fails) _ missing_table
       (add_query_body (scripted statement_fails) missing_table [] false)
       (example_state statement_fails "open" (Some 7))
       (snd (add_query_body (scripted statement_fails) missing_table []
               false (example_state statement_fails "open" (Some 7))))
       ORA_00942 eq_refl eq_refl) as H.
  cbv zeta in H; destruct H as (H & _).
  rewrite (H tt eq_refl); reflexivity.
Defined.

(** C3 as stated fails: the statement raises a driver error and release
    then raises an error that is not the driver's; the handler does not
    log that failure but lets it out, and no DatabaseException is
    raised. *)
Lemma release_failure_escalates :
  let run :=
    add_query (scripted release_breaks) missing_table true [] false
      (example_state release_breaks "open" (Some 7)) in
  fst run = Raise broken_pipe /\
  isinstance broken_pipe dbt_DatabaseException = false /\
  st_trace (snd run) =
  [Begin;
   Log DEBUG ("Using oracle connection " ++ dquote ++ "model.m" ++ dquote
              ++ ".");
   FireEvent (mkHookInfo "On model.m: SELECT * FROM missing");
   NewCursor (7 : Handle (scripted release_breaks));
   Execute (3 : Cursor (scripted release_breaks))
     "ALTER SESSION SET CURRENT_SCHEMA = analytics" None;
   Execute (3 : Cursor (scripted release_breaks)) missing_table (Some []);
   Log ERROR "Oracle error: ORA-00942: table or view does not exist";
   Release].
Proof. cbv zeta; repeat split; reflexivity. Qed.






(* ================================================================= *)
(** * A program logic for the manager's monad *)

Section Logic.

Variable E : Externals.
Variable T : State E -> State E -> Prop.
Variable Q : exc -> Prop.
Hypothesis T_preorder : preorder T.

Lemma sound_ret {A} (a : A) : sound T Q (ret a : M E A).
Proof.
  intros s; split; [apply (pre_refl T T_preorder) | discriminate].
Qed.

Lemma sound_raise {A} (e : exc) : Q e -> sound T Q (raise e : M E A).
Proof.
  intros He s; split; [apply (pre_refl T T_preorder)|].
  intros e' [= <-]; exact He.
Qed.

Lemma sound_conn_get {A} (f : DBTConnection (Handle E) -> A) :
  sound T Q (conn_get E f).
Proof.
  intros s; split; [apply (pre_refl T T_preorder) | discriminate].
Qed.

Lemma sound_bind {A B} (m : M E A) (k : A -> M E B) :
  sound T Q m -> (forall a, sound T Q (k a)) -> sound T Q (bind m k).
Proof.
  intros Hm Hk s; unfold bind.
  destruct (Hm s) as [Ht Hq].
  destruct (m s) as [[a|e] s1]; simpl in *.
  - destruct (Hk a s1) as [Ht' Hq']; split; [|exact Hq'].
    eapply (pre_trans T T_preorder); eassumption.
  - split; [exact Ht|].
    intros e' [= <-]; apply Hq; reflexivity.
Qed.

Lemma sound_try_except {A} (m : M E A) (h : exc -> M E A) :
  sound T Q m -> (forall e, Q e -> sound T Q (h e)) ->
  sound T Q (try_except m h).
Proof.
  intros Hm Hh s; unfold try_except.
  destruct (Hm s) as [Ht Hq].
  destruct (m s) as [[a|e] s1]; simpl in *.
  - split; [exact Ht | discriminate].
  - destruct (Hh e (Hq e eq_refl) s1) as [Ht' Hq']; split; [|exact Hq'].
    eapply (pre_trans T T_preorder); eassumption.
Qed.

End Logic.

Ltac sound_step :=
  match goal with
  | |- sound _ _ (bind _ _) => apply sound_bind; [assumption | | intros ]
  | |- sound _ _ (try_except _ _) =>
      apply sound_try_except; [assumption | | intros ]
  | |- sound _ _ (ret _) => apply sound_ret; assumption
  | |- sound _ _ (raise _) => apply sound_raise; [assumption|]
  | |- sound _ _ (conn_get _ _) => apply sound_conn_get; assumption
  | |- sound _ _ (if ?b then _ else _) => destruct b eqn:?
  | |- sound _ _ (match ?x with _ => _ end) => destruct x eqn:?
  end.

(** The two relations the theorems use are preorders. *)
Lemma fail_only_kept_preorder (E : Externals) :
  preorder (@fail_only_kept E).
Proof.
  split; unfold fail_only_kept; [tauto | intros s1 s2 s3; tauto].
Qed.

Lemma extends_with_preorder (E : Externals) (P : event E -> Prop) :
  preorder (extends_with P).
Proof.
  split; unfold extends_with.
  - intros s; exists []; split; [now rewrite app_nil_r | constructor].
  - intros s1 s2 s3 (d1 & H1 & F1) (d2 & H2 & F2).
    exists (d1 ++ d2)%list; split.
    + now rewrite H2, H1, app_assoc.
    + apply Forall_app; split; assumption.
Qed.

Section Primitives.

Variable E : Externals.
Variable T : State E -> State E -> Prop.
Variable Q : exc -> Prop.

Lemma sound_emit (ev : event E) :
  (forall s, T s (logged s [ev])) -> sound T Q (emit E ev).
Proof. intros H s; split; [apply H | discriminate]. Qed.

Lemma sound_time_now :
  (forall s w, T s {| st_conn := st_conn s; st_world := w;
                      st_trace := st_trace s |}) ->
  sound T Q (time_now E).
Proof.
  intros H s; unfold time_now.
  destruct (time_time E (st_world s)) as [t w]; split;
    [apply H | discriminate].
Qed.

Lemma sound_call_driver {A} (ev : event E)
  (f : World E -> result A * World E) :
  (forall s w, T s (moved s (st_conn s, w) [ev])) ->
  (forall w e, fst (f w) = Raise e -> Q e) ->
  sound T Q (call_driver E ev f).
Proof.
  intros Ht Hq s; unfold call_driver.
  pose proof (Hq (st_world s)) as Hq'.
  destruct (f (st_world s)) as [r w]; split; [apply Ht | exact Hq'].
Qed.

Lemma sound_call_host {A} (ev : event E)
  (f : DBTConnection (Handle E) * World E ->
       result A * (DBTConnection (Handle E) * World E)) :
  (forall s, T s (moved s (snd (f (st_conn s, st_world s))) [ev])) ->
  (forall cw e, fst (f cw) = Raise e -> Q e) ->
  sound T Q (call_host E ev f).
Proof.
  intros Ht Hq s; unfold call_host.
  pose proof (Ht s) as Ht'; pose proof (Hq (st_conn s, st_world s)) as Hq'.
  destruct (f (st_conn s, st_world s)) as [r cw]; split;
    [exact Ht' | exact Hq'].
Qed.

End Primitives.

Section HandlerLogic.

Variable E : Externals.
Variable T : State E -> State E -> Prop.
Variable Q : exc -> Prop.
Hypothesis T_preorder : preorder T.

(** The rule of the handler: it adds log lines and a release to what
    the block does, and turns the exceptions of the block and of release
    into themselves, their PEP 479 form, or one of the two exceptions it
    builds. *)
Lemma sound_exception_handler {A} (sql : string) (body : M E A) :
  (forall level text, sound T Q (emit E (Log level text))) ->
  sound T Q (call_host E Release (host_release E)) ->
  (forall e, Q e -> Q (pep479 e)) ->
  (forall e m, Q (MkExc dbt_DatabaseException (ArgStr m) (CausedBy e))) ->
  (forall e, Q (MkExc dbt_RuntimeException (ArgExc e) (CausedBy e))) ->
  sound T Q body -> sound T Q (exception_handler sql body).
Proof.
  intros Hlog Hrel Hpep Hdb Hrt Hbody s.
  pose proof (pre_trans T T_preorder) as Htrans.
  destruct (Hbody s) as [Ht Hq].
  destruct (body s) as [[a|e] s1] eqn:Hb; simpl in Ht, Hq.
  - rewrite (handler_returns E sql body s s1 a Hb).
    split; [exact Ht | discriminate].
  - specialize (Hq e eq_refl).
    assert (Hstep : forall level text (evs : list (event E)),
              evs = [Log level text; Release] ->
              T s (moved s1
                     (snd (host_release E (st_conn s1, st_world s1))) evs) /\
              (forall e', fst (host_release E (st_conn s1, st_world s1))
                          = Raise e' -> Q e')).
    { intros level text evs ->.
      destruct (Hlog level text s1) as [Hl _].
      destruct (Hrel (logged s1 [Log level text])) as [Hr Hrq].
      unfold call_host, emit, logged in *; state_simpl.
      destruct (host_release E (st_conn s1, st_world s1)) as [r cw].
      state_simpl; split; [|exact Hrq].
      unfold moved; state_simpl.
      rewrite <- app_assoc in Hr; eauto. }
    destruct (isinstance e cx_DatabaseError) eqn:Hd.
    + rewrite (handler_database_error E sql body s s1 e Hb Hd).
      destruct (Hstep ERROR ("Oracle error: " ++ exc_str e) _ eq_refl)
        as [Hts Hrq].
      destruct (host_release E (st_conn s1, st_world s1)) as [[u|e'] cw];
        state_simpl.
      * split; [exact Hts|]. intros e0 [= <-]; apply Hdb.
      * destruct (isinstance e' cx_Error).
        -- split; [|intros e0 [= <-]; apply Hdb].
           destruct (Hlog ERROR "Failed to release connection!"
                       (moved s1 cw
                          [Log ERROR ("Oracle error: " ++ exc_str e);
                           Release])) as [Hl _].
           unfold emit, logged, moved in *; state_simpl.
           rewrite <- app_assoc in Hl; eauto.
        -- split; [exact Hts|].
           intros e0 [= <-]; apply Hpep, Hrq; reflexivity.
    + destruct (isinstance e Exception) eqn:He.
      * rewrite (handler_other_error E sql body s s1 e Hb Hd He).
        destruct (Hstep ERROR "Rolling back transaction." _ eq_refl)
          as [Hts Hrq].
        destruct (host_release E (st_conn s1, st_world s1)) as [[u|e'] cw];
          state_simpl; (split; [exact Hts|]).
        -- destruct (isinstance e dbt_RuntimeException);
             [intros e0 [= <-]; exact Hq|].
           destruct (isinstance e StopIteration); intros e0 [= <-];
             [exact Hq | apply Hrt].
        -- intros e0 [= <-]; apply Hpep, Hrq; reflexivity.
      * rewrite (handler_base_exception E sql body s s1 e Hb He).
        split; [exact Ht|]. intros e0 [= <-]; exact Hq.
Qed.

End HandlerLogic.

Ltac sound_prim :=
  match goal with
  | |- sound _ _ (emit _ _) => apply sound_emit
  | |- sound _ _ (time_now _) => apply sound_time_now
  | |- sound _ _ (call_driver _ _ _) => apply sound_call_driver
  | |- sound _ _ (call_host _ _ _) => apply sound_call_host
  end.

Ltac unfold_add_query :=
  unfold add_query, add_query_body, handle_cursor, handle_commit,
    cursor_execute, begin, release, logger, fire_event.

Ltac sound_handler :=
  match goal with
  | |- sound _ _ (exception_handler _ _) =>
      apply sound_exception_handler;
      [assumption | intros | | intros | intros | intros | ]
  end.

Lemma pep479_keeps_no_connection_failure (e : exc) :
  not_connection_failure e -> not_connection_failure (pep479 e).
Proof.
  unfold pep479; destruct (isinstance e StopIteration); [reflexivity | auto].
Qed.

(** [add_query] leaves a connection out of state fail, and raises no
    FailedToConnectException, as long as the host tool and the driver do
    not. *)
Lemma add_query_keeps_off_fail (E : Externals) (sql : string)
  (auto_begin : bool) (bindings : Bindings E) (abridge_sql_log : bool) :
  host_sets_no_fail E -> externals_raise_no_connection_failure E ->
  sound (@fail_only_kept E) not_connection_failure
    (add_query E sql auto_begin bindings abridge_sql_log).
Proof.
  intros Hhost (Hconnect & Hcursor & Hexecute & Hcommit & Hbegin & Hrelease).
  pose proof (fail_only_kept_preorder E) as Hpre.
  unfold_add_query.
  repeat first [sound_handler | sound_step]; try sound_prim;
    try (intros; unfold fail_only_kept, moved, logged; state_simpl; tauto);
    try reflexivity; try assumption; eauto.
  all: try (apply pep479_keeps_no_connection_failure; assumption).
  all: intros s; unfold fail_only_kept, moved; state_simpl;
    apply (Hhost (st_conn s, st_world s)).
Qed.

Lemma extends_with_one (E : Externals) (P : event E -> Prop)
  (s s' : State E) (ev : event E) :
  st_trace s' = (st_trace s ++ [ev])%list -> P ev -> extends_with P s s'.
Proof.
  intros Ht Hp; exists [ev]; split; [exact Ht | now constructor].
Qed.

(** Whatever the run, the only statement [add_query] executes with
    bindings is the one it was given, whole. *)
Lemma add_query_runs_in_full (E : Externals) (sql : string)
  (auto_begin : bool) (bindings : Bindings E) (abridge_sql_log : bool) :
  sound (extends_with (runs_in_full sql bindings)) any_exc
    (add_query E sql auto_begin bindings abridge_sql_log).
Proof.
  pose proof (extends_with_preorder E (runs_in_full sql bindings)) as Hpre.
  unfold_add_query.
  repeat first [sound_handler | sound_step]; try sound_prim; try exact I;
    try (intros; exact I);
    try (intros; eapply extends_with_one;
         [reflexivity | simpl; auto]).
  - intros s w; exists []; split; [now rewrite app_nil_r | constructor].
  - intros s w; exists []; split; [now rewrite app_nil_r | constructor].
Qed.

(* ================================================================= *)
(** * open *)

Section OpenFacts.

Variable E : Externals.

Lemma open_skips (s : State E) :
  state (st_conn s) = "open" ->
  open E s =
  (Ok (st_conn s),
   logged s [Log DEBUG "Connection is already open, skipping open."]).
Proof.
  intros Hs; unfold open; monad_unfold; rewrite Hs; reflexivity.
Qed.

(** What [open] does on a connection that is not open, by the outcome
    of the driver's connect. *)
Lemma open_connects (s : State E) :
  (state (st_conn s) =? "open") = false ->
  open E s =
  match connect_call s with
  | (Ok h, w) =>
      (Ok (set_state (set_handle (st_conn s) (Some h)) "open"),
       moved s (set_state (set_handle (st_conn s) (Some h)) "open", w)
         (connect_attempt s))
  | (Raise e, w) =>
      if isinstance e cx_DatabaseError then
        (Raise (MkExc dbt_FailedToConnectException (ArgStr (exc_str e))
                  NoCause),
         moved s (failed (st_conn s), w)
           (connect_attempt s ++
            [Log INFO
               ("Got an error when attempting to open an Oracle connection: '"
                ++ exc_str e ++ "'")]))
      else (Raise e, moved s (st_conn s, w) (connect_attempt s))
  end.
Proof.
  intros Hs; unfold open, connect_call, connect_attempt; monad_unfold.
  rewrite Hs; state_simpl.
  destruct (cx_connect E _ _ _ _ _) as [[h|e] w]; state_simpl.
  - unfold moved; state_simpl; rewrite <- !app_assoc; reflexivity.
  - destruct (isinstance e cx_DatabaseError); unfold moved; state_simpl;
      rewrite <- !app_assoc; reflexivity.
Qed.

End OpenFacts.

(** C5. On a connection whose state is already open, [open] returns the
    connection as it is, touching neither it nor the world and creating
    no handle; a second call does the same, so that two calls leave the
    connection and the world as one call does. *)
Theorem open_when_already_open (E : Externals) (s : State E) :
  state (st_conn s) = "open" ->
  let skip := Log DEBUG "Connection is already open, skipping open." in
  let once := open E s in
  let twice := open E (snd once) in
  once = (Ok (st_conn s), logged s [skip]) /\
  twice = (Ok (st_conn s), logged s [skip; skip]) /\
  st_conn (snd twice) = st_conn (snd once) /\
  st_world (snd twice) = st_world (snd once) /\
  handle (st_conn (snd twice)) = handle (st_conn s) /\
  connects (st_trace (snd twice)) = connects (st_trace s).
Proof.
  intros Hs; cbv zeta.
  rewrite (open_skips E s Hs); simpl snd.
  rewrite (open_skips E (logged s _) Hs).
  unfold logged; state_simpl; rewrite <- !app_assoc.
  repeat split.
  unfold connects; rewrite filter_app; simpl; now rewrite app_nil_r.
Qed.

Lemma open_when_already_open_witness :
  open (scripted all_ok)
    (snd (open (scripted all_ok) (example_state all_ok "open" (Some 7)))) =
  (Ok (example_connection "open" (Some 7)),
   logged (example_state all_ok "open" (Some 7))
     [Log DEBUG "Connection is already open, skipping open.";
      Log DEBUG "Connection is already open, skipping open."]).
Proof.
  exact (proj1 (proj2 (open_when_already_open (scripted all_ok)
                         (example_state all_ok "open" (Some 7)) eq_refl))).
Defined.

Lemma outside_exception_is_no_connection_failure (e : exc) :
  isinstance e Exception = false -> not_connection_failure e.
Proof.
  unfold not_connection_failure, isinstance.
  destruct (exc_cls e); simpl; congruence.
Qed.

(** [cancel] does not touch the connection object and raises nothing
    but a plain Exception, or what went past its except clause. *)
Lemma cancel_keeps_connection (E : Externals) (s : State E) :
  st_conn (snd (cancel E s)) = st_conn s /\
  (forall e, fst (cancel E s) = Raise e -> not_connection_failure e).
Proof.
  unfold cancel; monad_unfold; state_simpl.
  destruct (cx_close E _ _) as [[u|e] w]; state_simpl.
  - split; [reflexivity | discriminate].
  - destruct (isinstance e Exception) eqn:He; state_simpl.
    + split; [reflexivity|]. intros e' [= <-]; reflexivity.
    + split; [reflexivity|]. intros e' [= <-].
      now apply outside_exception_is_no_connection_failure.
Qed.

Lemma add_begin_query_keeps_state (E : Externals) (s : State E) :
  snd (add_begin_query E s) = s /\
  (forall e, fst (add_begin_query E s) = Raise e ->
             not_connection_failure e).
Proof.
  unfold add_begin_query; monad_unfold.
  destruct (handle (st_conn s)); simpl.
  - split; [reflexivity | discriminate].
  - split; [reflexivity|]. intros e [= <-]; reflexivity.
Qed.

(** C6 as stated fails: the driver's connect raises an error of the
    driver that is not a database error; [open] lets it out as it is,
    raises no FailedToConnectException, and sets neither the state to
    fail nor the handle to null. *)
Lemma open_lets_other_driver_errors_out :
  let run :=
    open (scripted not_connected)
      (example_state not_connected "closed" (Some 9)) in
  isinstance DPI_1010 cx_Error = true /\
  fst run = Raise DPI_1010 /\
  isinstance DPI_1010 dbt_FailedToConnectException = false /\
  state (st_conn (snd run)) = "closed" /\
  handle (st_conn (snd run)) = Some 9.
Proof. cbv zeta; repeat split; reflexivity. Qed.

(** C6, as the code has it. When the driver's connect raises a database
    error (cx_Oracle.DatabaseError), [open] sets the handle to null and
    the state to fail and raises a FailedToConnectException with the
    driver's message; any other error of connect, of the driver or not,
    leaves [open] as it is with the connection untouched.  No other path
    sets the state to fail or raises that exception: [open] ends in
    state fail only through that path or by leaving the connection as it
    was; [cancel] and [add_begin_query] never touch the connection;
    [add_query] leaves it out of state fail unless the host tool puts it
    there; and none of them raises a FailedToConnectException that the
    driver or the host tool did not raise. *)
Theorem open_failure_is_the_only_fail (E : Externals) (s : State E) :
  (forall e w,
     (state (st_conn s) =? "open") = false ->
     connect_call s = (Raise e, w) -> isinstance e cx_DatabaseError = true ->
     open E s =
     (Raise (MkExc dbt_FailedToConnectException (ArgStr (exc_str e))
               NoCause),
      moved s (failed (st_conn s), w)
        (connect_attempt s ++
         [Log INFO
            ("Got an error when attempting to open an Oracle connection: '"
             ++ exc_str e ++ "'")])) /\
     handle (failed (st_conn s)) = None /\
     state (failed (st_conn s)) = "fail") /\
  (forall e w,
     (state (st_conn s) =? "open") = false ->
     connect_call s = (Raise e, w) -> isinstance e cx_DatabaseError = false ->
     open E s = (Raise e, moved s (st_conn s, w) (connect_attempt s))) /\
  (state (st_conn (snd (open E s))) = "fail" ->
   st_conn (snd (open E s)) = st_conn s \/
   (exists e, fst (connect_call s) = Raise e /\
              isinstance e cx_DatabaseError = true /\
              (state (st_conn s) =? "open") = false)) /\
  (externals_raise_no_connection_failure E ->
   forall e', fst (open E s) = Raise e' ->
     isinstance e' dbt_FailedToConnectException = true ->
     exists e, fst (connect_call s) = Raise e /\
               isinstance e cx_DatabaseError = true /\
               (state (st_conn s) =? "open") = false /\
               e' = MkExc dbt_FailedToConnectException
                      (ArgStr (exc_str e)) NoCause) /\
  (st_conn (snd (cancel E s)) = st_conn s /\
   (forall e, fst (cancel E s) = Raise e -> not_connection_failure e)) /\
  (snd (add_begin_query E s) = s /\
   (forall e, fst (add_begin_query E s) = Raise e ->
              not_connection_failure e)) /\
  (host_sets_no_fail E -> externals_raise_no_connection_failure E ->
   forall sql auto_begin bindings abridge_sql_log,
     let run := add_query E sql auto_begin bindings abridge_sql_log s in
     fail_only_kept s (snd run) /\
     (forall e, fst run = Raise e -> not_connection_failure e)).
Proof.
  split; [|split; [|split; [|split; [|split; [|split]]]]].
  - intros e w Hs Hc He.
    rewrite (open_connects E s Hs), Hc, He; repeat split.
  - intros e w Hs Hc He.
    now rewrite (open_connects E s Hs), Hc, He.
  - destruct (state (st_conn s) =? "open") eqn:Hs.
    + apply String.eqb_eq in Hs; rewrite (open_skips E s Hs); auto.
    + rewrite (open_connects E s Hs).
      destruct (connect_call s) as [[h|e] w] eqn:Hc; state_simpl.
      * discriminate.
      * destruct (isinstance e cx_DatabaseError) eqn:He; state_simpl; eauto.
  - intros (Hconnect & _) e' Hr He'.
    destruct (state (st_conn s) =? "open") eqn:Hs.
    + apply String.eqb_eq in Hs; rewrite (open_skips E s Hs) in Hr.
      discriminate.
    + rewrite (open_connects E s Hs) in Hr.
      destruct (connect_call s) as [[h|e] w] eqn:Hc; state_simpl.
      * discriminate.
      * destruct (isinstance e cx_DatabaseError) eqn:He; state_simpl.
        -- injection Hr as <-; eauto.
        -- injection Hr as <-.
           unfold connect_call in Hc.
           apply (f_equal fst) in Hc; simpl in Hc.
           apply Hconnect in Hc; unfold not_connection_failure in Hc.
           congruence.
  - apply cancel_keeps_connection.
  - apply add_begin_query_keeps_state.
  - intros Hhost Hext sql auto_begin bindings abridge_sql_log; cbv zeta.
    apply (add_query_keeps_off_fail E sql auto_begin bindings
             abridge_sql_log Hhost Hext s).
Qed.

Lemma open_failure_is_the_only_fail_witness :
  fst (open (scripted no_listener) (example_state no_listener "init" None)) =
  Raise (MkExc dbt_FailedToConnectException
           (ArgStr "ORA-12541: TNS:no listener") NoCause) /\
  st_conn (snd (open (scripted no_listener)
                  (example_state no_listener "init" None))) =
  failed (example_connection "init" None) /\
  fail_only_kept (example_state no_listener "open" (Some 7))
    (snd (add_query (scripted no_listener) missing_table true [] false
            (example_state no_listener "open" (Some 7)))).
Proof.
  pose proof (open_failure_is_the_only_fail (scripted no_listener)
                (example_state no_listener "init" None))
    as (Hopen & _).
  pose proof (open_failure_is_the_only_fail (scripted no_listener)
                (example_state no_listener "open" (Some 7)))
    as (_ & _ & _ & _ & _ & _ & Hquery).
  destruct (Hopen ORA_12541 1%nat eq_refl eq_refl eq_refl) as (Hrun & _ & _).
  split; [now rewrite Hrun | split; [now rewrite Hrun|]].
  apply Hquery.
  - intros cw; simpl; tauto.
  - repeat split; simpl; intros; try discriminate.
    match goal with H : Raise _ = Raise _ |- _ => injection H as <- end.
    reflexivity.
Defined.

(* ================================================================= *)
(** * add_query *)

Section AddQueryFacts.

Variable E : Externals.
Variables (sql : string) (bindings : Bindings E) (abridge_sql_log : bool).

(** A run of the block that returns: the calls it made, in order. *)
Lemma add_query_body_returns (s s' : State E)
  (c : DBTConnection (Handle E)) (cur : Cursor E) :
  add_query_body E sql bindings abridge_sql_log s = (Ok (c, cur), s') ->
  c = st_conn s /\ st_conn s' = st_conn s /\
  exists h elapsed,
    handle c = Some h /\
    st_trace s' =
    (st_trace s ++ statement_log c abridge_sql_log sql ++ [NewCursor h]
     ++ precode_run c cur
     ++ [Execute cur sql (Some bindings); Commit h]
     ++ status_log c elapsed)%list.
Proof.
  unfold add_query_body, statement_log, precode_run, status_log.
  monad_unfold; state_simpl.
  destruct (truthy_bool (debug_log_commands (credentials (st_conn s))))
    eqn:Hdebug; state_simpl.
  all: destruct (time_time E (st_world s)) as [pre w0]; state_simpl.
  all: destruct (handle (st_conn s)) as [h|] eqn:Hh; state_simpl;
    [|discriminate].
  all: destruct (cx_cursor E h w0) as [[cur0|e] w1]; state_simpl;
    [|discriminate].
  all: destruct (cursor_precode (credentials (st_conn s))) as [p|] eqn:Hp;
    cbn [truthy_str format_opt_str];
    [destruct (p =? "") eqn:Hpe; cbn [negb]|].
  all: repeat (progress (rewrite ?Hh, ?Hdebug; state_simpl) ||
       match goal with
       | |- context [cx_execute E ?c ?q ?b ?w] =>
           destruct (cx_execute E c q b w) as [[[]|?] ?]; state_simpl;
           [|discriminate]
       | |- context [cx_commit E ?h ?w] =>
           destruct (cx_commit E h w) as [[[]|?] ?]; state_simpl;
           [|discriminate]
       | |- context [time_time E ?w] =>
           destruct (time_time E w) as [now ?]; state_simpl
       end).
  all: intros Hrun; inversion Hrun; subst; clear Hrun; state_simpl;
    rewrite ?Hh, ?Hdebug, ?Hp, ?Hpe.
  all: split; [reflexivity | split; [reflexivity|]].
  all: exists h;
    first [ exists (format_elapsed E now pre) | exists "" ];
    split; [reflexivity|];
    rewrite <- ?app_assoc; reflexivity.
Qed.

(** The block, run forward: when the cursor is created and the precode
    and the statement are executed, the outcome of the block is the
    outcome of the driver's commit. *)
Lemma add_query_body_forward (s : State E) (h : Handle E) (pre : Time E)
  (cur : Cursor E) (w1 w2 w3 w4 : World E) :
  handle (st_conn s) = Some h ->
  time_time E (st_world s) = (pre, w1) ->
  cx_cursor E h w1 = (Ok cur, w2) ->
  precode_when_set E (st_conn s) cur w2 = (Ok tt, w3) ->
  cx_execute E cur sql (Some bindings) w3 = (Ok tt, w4) ->
  let sent :=
    (statement_log (st_conn s) abridge_sql_log sql ++ [NewCursor h]
     ++ precode_run (st_conn s) cur
     ++ [Execute cur sql (Some bindings); Commit h])%list in
  add_query_body E sql bindings abridge_sql_log s =
  match cx_commit E h w4 with
  | (Ok _, w5) =>
      (Ok (st_conn s, cur),
       {| st_conn := st_conn s;
          st_world := world_after_status E (st_conn s) w5;
          st_trace :=
            st_trace s ++ sent
            ++ status_log (st_conn s)
                 (format_elapsed E (fst (time_time E w5)) pre) |})
  | (Raise e, w5) =>
      (Raise e,
       {| st_conn := st_conn s; st_world := w5;
          st_trace := st_trace s ++ sent |})
  end.
Proof.
  intros Hh Htime Hcur Hpre Hexec; cbv zeta.
  unfold add_query_body, precode_when_set, statement_log, precode_run,
    status_log, world_after_status in *.
  monad_unfold; state_simpl.
  destruct (truthy_bool (debug_log_commands (credentials (st_conn s))))
    eqn:Hdebug; state_simpl.
  all: rewrite Htime; state_simpl; rewrite Hh; state_simpl;
    rewrite Hcur; state_simpl.
  all: destruct (cursor_precode (credentials (st_conn s))) as [p|] eqn:Hp;
    cbn [truthy_str format_opt_str];
    [destruct (p =? "") eqn:Hpe; cbn [negb]|].
  all: try (injection Hpre as <-); state_simpl; rewrite ?Hpre; state_simpl.
  all: rewrite Hexec; state_simpl; rewrite Hh; state_simpl.
  all: destruct (cx_commit E h w4) as [[u|e] w5]; state_simpl;
    rewrite ?Hdebug; state_simpl.
  all: try destruct (time_time E w5) as [now w6]; state_simpl.
  all: rewrite <- ?app_assoc; reflexivity.
Qed.

End AddQueryFacts.

Section AddQuerySequence.

Variable E : Externals.
Variables (sql : string) (auto_begin : bool) (bindings : Bindings E)
  (abridge_sql_log : bool).

Lemma handled_body_extends :
  sound (extends_with (@any_event E)) any_exc
    (exception_handler sql (add_query_body E sql bindings abridge_sql_log)).
Proof.
  pose proof (extends_with_preorder E (@any_event E)) as Hpre.
  unfold_add_query.
  repeat first [sound_handler | sound_step]; try sound_prim; try exact I; try (intros; exact I);
    try (intros; eapply extends_with_one; [reflexivity | exact I]).
  - intros s w; exists []; split; [now rewrite app_nil_r | constructor].
  - intros s w; exists []; split; [now rewrite app_nil_r | constructor].
Qed.

(** [add_query], cut at the call of [begin]: an exception of [begin] is
    raised outside the handler. *)
Lemma add_query_unfold (s : State E) :
  add_query E sql auto_begin bindings abridge_sql_log s =
  match
    (if auto_begin && negb (transaction_open (st_conn s))
     then begin E s else (Ok tt, s))
  with
  | (Ok _, s0) =>
      exception_handler sql (add_query_body E sql bindings abridge_sql_log)
        (logged s0 [using_log (st_conn s0)])
  | (Raise e, s0) => (Raise e, s0)
  end.
Proof.
  unfold add_query, bind, conn_get, logger, emit; state_simpl.
  destruct (auto_begin && negb (transaction_open (st_conn s))).
  - destruct (begin E s) as [[u|e] s0]; reflexivity.
  - reflexivity.
Qed.

Lemma begin_trace (s : State E) :
  st_trace (snd (begin E s)) = (st_trace s ++ [Begin])%list.
Proof.
  unfold begin, call_host.
  destruct (host_begin E _) as [r cw]; reflexivity.
Qed.

(** The handled block, entered after the debug line: a run that returns
    made the calls of the block and nothing else. *)
Lemma handled_body_runs (s0 s' : State E)
  (r : result (DBTConnection (Handle E) * Cursor E)) :
  exception_handler sql (add_query_body E sql bindings abridge_sql_log)
    (logged s0 [using_log (st_conn s0)]) = (r, s') ->
  (exists rest,
     st_trace s' = (st_trace s0 ++ using_log (st_conn s0) :: rest)%list) /\
  (forall c cur, r = Ok (c, cur) ->
     c = st_conn s' /\
     exists h elapsed,
       handle c = Some h /\
       st_trace s' =
       (st_trace s0 ++ [using_log c]
        ++ statement_log c abridge_sql_log sql
        ++ [NewCursor h] ++ precode_run c cur
        ++ [Execute cur sql (Some bindings); Commit h]
        ++ status_log c elapsed)%list).
Proof.
  set (body := add_query_body E sql bindings abridge_sql_log).
  intros Hrun; split.
  - destruct (handled_body_extends (logged s0 [using_log (st_conn s0)]))
      as [(d & Hd & _) _].
    fold body in Hd; rewrite Hrun in Hd; simpl in Hd.
    exists d; rewrite Hd, <- app_assoc; reflexivity.
  - intros c cur ->.
    destruct (body (logged s0 [using_log (st_conn s0)]))
      as [[[c0 cur0]|e] s1] eqn:Hb.
    + rewrite (handler_returns E sql body _ _ _ Hb) in Hrun.
      injection Hrun as <- <- <-.
      apply add_query_body_returns in Hb
        as (Hc & Hconn & h & elapsed & Hh & Htr).
      unfold logged in Hc, Hconn, Htr; state_simpl.
      split; [congruence|].
      exists h, elapsed; split; [exact Hh|].
      rewrite Htr, Hc, <- !app_assoc; reflexivity.
    + destruct (handler_raises E sql body _ _ _ Hb) as (e' & s2 & Hr).
      rewrite Hr in Hrun; discriminate.
Qed.

(** A run of [add_query] either gets past [begin], called when it is
    due, and enters the handled block, or ends with the exception that
    [begin] raised. *)
Lemma add_query_cases (s s' : State E)
  (r : result (DBTConnection (Handle E) * Cursor E)) :
  add_query E sql auto_begin bindings abridge_sql_log s = (r, s') ->
  (exists s0,
     st_trace s0 = (st_trace s ++ begun auto_begin (st_conn s))%list /\
     exception_handler sql (add_query_body E sql bindings abridge_sql_log)
       (logged s0 [using_log (st_conn s0)]) = (r, s')) \/
  (exists e,
     r = Raise e /\ begin E s = (Raise e, s') /\
     begun auto_begin (st_conn s) = [Begin] /\
     st_trace s' = (st_trace s ++ [Begin])%list).
Proof.
  rewrite add_query_unfold; unfold begun.
  destruct (auto_begin && negb (transaction_open (st_conn s))).
  - pose proof (begin_trace s) as Hbt.
    destruct (begin E s) as [[u|e] s0]; simpl in Hbt.
    + intros Hrun; left; exists s0; split; assumption.
    + intros [= <- <-]; right; exists e; repeat split; assumption.
  - intros Hrun; left; exists s; split; [now rewrite app_nil_r | assumption].
Qed.

End AddQuerySequence.

(** A run of [add_query] past [begin], forward: with the cursor created
    and the precode and the statement executed, the run ends as the
    driver's commit does. *)
Lemma add_query_forward (E : Externals) (sql : string) (auto_begin : bool)
  (bindings : Bindings E) (abridge_sql_log : bool) (s : State E)
  (c0 : DBTConnection (Handle E)) (w0 : World E) (h : Handle E)
  (pre : Time E) (cur : Cursor E) (w1 w2 w3 w4 : World E) :
  begin_when_due E auto_begin (st_conn s, st_world s) = (Ok tt, (c0, w0)) ->
  handle c0 = Some h ->
  time_time E w0 = (pre, w1) ->
  cx_cursor E h w1 = (Ok cur, w2) ->
  precode_when_set E c0 cur w2 = (Ok tt, w3) ->
  cx_execute E cur sql (Some bindings) w3 = (Ok tt, w4) ->
  exists s1,
    add_query E sql auto_begin bindings abridge_sql_log s =
    exception_handler sql (add_query_body E sql bindings abridge_sql_log) s1
    /\
    add_query_body E sql bindings abridge_sql_log s1 =
    match cx_commit E h w4 with
    | (Ok _, w5) =>
        (Ok (c0, cur),
         {| st_conn := c0;
            st_world := world_after_status E c0 w5;
            st_trace :=
              st_trace s
              ++ (begun auto_begin (st_conn s) ++ [using_log c0]
                  ++ statement_log c0 abridge_sql_log sql ++ [NewCursor h]
                  ++ precode_run c0 cur
                  ++ [Execute cur sql (Some bindings); Commit h])
              ++ status_log c0
                   (format_elapsed E (fst (time_time E w5)) pre) |})
    | (Raise e, w5) =>
        (Raise e,
         {| st_conn := c0; st_world := w5;
            st_trace :=
              st_trace s
              ++ (begun auto_begin (st_conn s) ++ [using_log c0]
                  ++ statement_log c0 abridge_sql_log sql ++ [NewCursor h]
                  ++ precode_run c0 cur
                  ++ [Execute cur sql (Some bindings); Commit h]) |})
    end.
Proof.
  intros Hbegin Hh Htime Hcur Hpre Hexec.
  assert (Hs0 : exists s0,
            (if auto_begin && negb (transaction_open (st_conn s))
             then begin E s else (Ok tt, s)) = (Ok tt, s0) /\
            st_conn s0 = c0 /\ st_world s0 = w0 /\
            st_trace s0 = (st_trace s ++ begun auto_begin (st_conn s))%list).
  { unfold begin_when_due, begun in *; simpl fst in Hbegin.
    destruct (auto_begin && negb (transaction_open (st_conn s))).
    - unfold begin, call_host; rewrite Hbegin.
      eexists; split; [reflexivity | repeat split].
    - injection Hbegin as <- <-.
      exists s; repeat split; simpl; now rewrite app_nil_r. }
  destruct Hs0 as (s0 & Hrun0 & Hc0 & Hw0 & Ht0).
  exists (logged s0 [using_log (st_conn s0)]); split.
  - now rewrite add_query_unfold, Hrun0.
  - subst c0 w0.
    rewrite (add_query_body_forward E sql bindings abridge_sql_log
               (logged s0 [using_log (st_conn s0)]) h pre cur w1 w2 w3 w4
               Hh Htime Hcur Hpre Hexec).
    unfold logged; state_simpl; rewrite Ht0.
    destruct (cx_commit E h w4) as [[u|e] w5];
      rewrite <- !app_assoc; reflexivity.
Qed.

(** C7. In every run of [add_query], [begin] is called first exactly
    when [auto_begin] is set and the connection has no transaction open.
    When [begin] (if due), the cursor creation, the execute of the
    precode (if one is configured) and the execute of the statement with
    its bindings on the same cursor each return, the driver's commit is
    called next: if it returns, [add_query] returns the pair of the
    connection and that cursor, the world is the one the commit left
    (and the status clock, under debug), and those calls were made in
    that order with nothing between them; if it raises, [add_query]
    raises.  Conversely a run that returns has made exactly those
    calls. *)
Theorem add_query_sequence (E : Externals) (sql : string)
  (auto_begin : bool) (bindings : Bindings E) (abridge_sql_log : bool)
  (s : State E) :
  (forall c0 w0 h pre cur w1 w2 w3 w4,
     begin_when_due E auto_begin (st_conn s, st_world s)
     = (Ok tt, (c0, w0)) ->
     handle c0 = Some h ->
     time_time E w0 = (pre, w1) ->
     cx_cursor E h w1 = (Ok cur, w2) ->
     precode_when_set E c0 cur w2 = (Ok tt, w3) ->
     cx_execute E cur sql (Some bindings) w3 = (Ok tt, w4) ->
     (forall u w5, cx_commit E h w4 = (Ok u, w5) ->
        add_query E sql auto_begin bindings abridge_sql_log s =
        (Ok (c0, cur),
         {| st_conn := c0;
            st_world := world_after_status E c0 w5;
            st_trace :=
              st_trace s
              ++ (begun auto_begin (st_conn s) ++ [using_log c0]
                  ++ statement_log c0 abridge_sql_log sql ++ [NewCursor h]
                  ++ precode_run c0 cur
                  ++ [Execute cur sql (Some bindings); Commit h])
              ++ status_log c0
                   (format_elapsed E (fst (time_time E w5)) pre) |})) /\
     (forall e w5, cx_commit E h w4 = (Raise e, w5) ->
        exists e' s',
          add_query E sql auto_begin bindings abridge_sql_log s
          = (Raise e', s'))) /\
  (forall r s',
     add_query E sql auto_begin bindings abridge_sql_log s = (r, s') ->
     (exists rest,
        st_trace s' =
        (st_trace s ++ begun auto_begin (st_conn s) ++ rest)%list) /\
     (forall c cur, r = Ok (c, cur) ->
        c = st_conn s' /\
        exists h elapsed,
          handle c = Some h /\
          st_trace s' =
          (st_trace s ++ begun auto_begin (st_conn s) ++ [using_log c]
           ++ statement_log c abridge_sql_log sql
           ++ [NewCursor h] ++ precode_run c cur
           ++ [Execute cur sql (Some bindings); Commit h]
           ++ status_log c elapsed)%list)).
Proof.
  split.
  - intros c0 w0 h pre cur w1 w2 w3 w4 Hbegin Hh Htime Hcur Hpre Hexec.
    destruct (add_query_forward E sql auto_begin bindings abridge_sql_log s
                c0 w0 h pre cur w1 w2 w3 w4 Hbegin Hh Htime Hcur Hpre Hexec)
      as (s1 & Hrun & Hbody).
    split.
    + intros u w5 Hcommit; rewrite Hcommit in Hbody.
      rewrite Hrun.
      exact (handler_returns E sql _ s1 _ _ Hbody).
    + intros e w5 Hcommit; rewrite Hcommit in Hbody.
      rewrite Hrun.
      exact (handler_raises E sql _ s1 _ e Hbody).
  - intros r s' Hrun.
    destruct (add_query_cases E sql auto_begin bindings abridge_sql_log
                s s' r Hrun) as [(s0 & Ht & Hbody) | (e & -> & _ & Hb & Ht)].
    + destruct (handled_body_runs E sql bindings abridge_sql_log s0 s' r
                  Hbody) as ((rest & Hrest) & Hok); split.
      * exists (using_log (st_conn s0) :: rest).
        rewrite Hrest, Ht, <- app_assoc; reflexivity.
      * intros c cur Hr.
        destruct (Hok c cur Hr) as (Hc & h & elapsed & Hh & Htr).
        split; [exact Hc|].
        exists h, elapsed; split; [exact Hh|].
        rewrite Htr, Ht, <- !app_assoc; reflexivity.
    + split; [|discriminate].
      exists []; rewrite Hb, Ht; reflexivity.
Qed.

Lemma add_query_sequence_witness :
  add_query (scripted all_ok) "select 1 from dual" true [] false
    (example_state all_ok "open" (Some 7)) =
  (Ok (set_transaction_open (example_connection "open" (Some 7)) true
         : DBTConnection (Handle (scripted all_ok)),
       3%nat : Cursor (scripted all_ok)),
   @Build_State (scripted all_ok)
     (set_transaction_open (example_connection "open" (Some 7)) true)
     7%nat
     [Begin;
      Log DEBUG ("Using oracle connection " ++ dquote ++ "model.m"
                 ++ dquote ++ ".");
      FireEvent (mkHookInfo "On model.m: select 1 from dual");
      NewCursor (7 : Handle (scripted all_ok));
      Execute (3 : Cursor (scripted all_ok))
        "ALTER SESSION SET CURRENT_SCHEMA = analytics" None;
      Execute (3 : Cursor (scripted all_ok)) "select 1 from dual"
        (Some []);
      Commit (7 : Handle (scripted all_ok));
      FireEvent
        (mkHookInfo
           "SQL status: DummyResponse(_message='OK') in 5.00 seconds")]).
Proof.
  destruct (add_query_sequence (scripted all_ok) "select 1 from dual" true
              [] false (example_state all_ok "open" (Some 7)))
    as (Hforward & _).
  destruct (Hforward
              (set_transaction_open (example_connection "open" (Some 7)) true)
              1%nat 7%nat 1%nat 3%nat 2%nat 3%nat 4%nat 5%nat
              eq_refl eq_refl eq_refl eq_refl eq_refl eq_refl)
    as (Hreturns & _).
  rewrite (Hreturns tt 6%nat eq_refl); reflexivity.
Defined.

Lemma substring_short (s : string) (n : nat) :
  String.length s <= n -> substring 0 n s = s.
Proof.
  revert n; induction s as [|a s IH]; intros n Hn.
  - destruct n; reflexivity.
  - destruct n as [|n]; simpl in *; [lia|].
    rewrite IH by lia; reflexivity.
Qed.

Lemma substring_prefix_length (s : string) (n : nat) :
  String.length (substring 0 n s) = Nat.min n (String.length s) /\
  prefix (substring 0 n s) s = true.
Proof.
  revert n; induction s as [|a s IH]; intros n.
  - destruct n; split; reflexivity.
  - destruct n as [|n]; simpl; [split; reflexivity|].
    destruct (IH n) as [Hl Hp]; rewrite Hl, Hp.
    split; [reflexivity|].
    destruct (ascii_dec a a); [reflexivity | contradiction].
Qed.

(** C9. With [abridge_sql_log] set, the text [add_query] logs for the
    statement is its first 512 characters followed by three dots, the
    dots being added also when the statement has 512 characters or
    fewer.  Whatever the flag and whatever the run, the statement that is
    executed with the bindings is the whole statement; in a run that
    returns it has been executed, and under [debug_log_commands] the log
    entry carries that text. *)
Theorem abridged_log_keeps_statement (E : Externals) (sql : string)
  (auto_begin : bool) (bindings : Bindings E) (abridge_sql_log : bool)
  (s s' : State E) (r : result (DBTConnection (Handle E) * Cursor E)) :
  add_query E sql auto_begin bindings abridge_sql_log s = (r, s') ->
  log_sql_of true sql = substring 0 512 sql ++ "..." /\
  String.length (substring 0 512 sql) = Nat.min 512 (String.length sql) /\
  prefix (substring 0 512 sql) sql = true /\
  (String.length sql <= 512 -> log_sql_of true sql = sql ++ "...") /\
  exists d,
    st_trace s' = (st_trace s ++ d)%list /\
    Forall (runs_in_full sql bindings) d /\
    (forall c cur, r = Ok (c, cur) ->
       In (Execute cur sql (Some bindings)) d /\
       (truthy_bool (debug_log_commands (credentials c)) = true ->
        In (FireEvent
              (mkHookInfo
                 ("On " ++ format_opt_str (name c) ++ ": "
                  ++ log_sql_of abridge_sql_log sql))) d /\
        (abridge_sql_log = true ->
         In (FireEvent
               (mkHookInfo
                  ("On " ++ format_opt_str (name c) ++ ": "
                   ++ substring 0 512 sql ++ "..."))) d))).
Proof.
  intros Hrun.
  destruct (substring_prefix_length sql 512) as [Hlen Hpre].
  split; [reflexivity | split; [exact Hlen | split; [exact Hpre | split]]].
  - intros Hshort; unfold log_sql_of; now rewrite substring_short.
  - destruct (add_query_runs_in_full E sql auto_begin bindings
                abridge_sql_log s) as [(d & Hd & Hall) _].
    rewrite Hrun in Hd; simpl in Hd.
    exists d; split; [exact Hd | split; [exact Hall|]].
    intros c cur ->.
    destruct (add_query_cases E sql auto_begin bindings abridge_sql_log
                s s' _ Hrun) as [(s0 & Hs0 & Hbody) | (e & He & _)];
      [|discriminate].
    destruct (handled_body_runs E sql bindings abridge_sql_log s0 s' _ Hbody)
      as (_ & Hok).
    destruct (Hok c cur eq_refl) as (_ & h & elapsed & _ & Ht).
    rewrite Hs0, Hd, <- app_assoc in Ht; apply app_inv_head in Ht; subst d.
    split.
    + rewrite !in_app_iff; do 5 right; left; left; reflexivity.
    + intros Hdebug.
      assert (Hin : In (FireEvent
                          (mkHookInfo
                             ("On " ++ format_opt_str (name c) ++ ": "
                              ++ log_sql_of abridge_sql_log sql)))
                      (statement_log c abridge_sql_log sql : list (event E))).
      { unfold statement_log; rewrite Hdebug; left; reflexivity. }
      split.
      * rewrite !in_app_iff; do 2 right; left; exact Hin.
      * intros ->; rewrite !in_app_iff; do 2 right; left; exact Hin.
Qed.

Lemma abridged_log_keeps_statement_witness :
  let run :=
    add_query (scripted all_ok) "select 1 from dual" true [] true
      (example_state all_ok "open" (Some 7)) in
  log_sql_of true "select 1 from dual" = "select 1 from dual..." /\
  In (Execute (3 : Cursor (scripted all_ok)) "select 1 from dual" (Some []))
    (st_trace (snd run)) /\
  In (FireEvent (mkHookInfo "On model.m: select 1 from dual..."))
    (st_trace (snd run)).
Proof.
  cbv zeta.
  set (run := add_query (scripted all_ok) "select 1 from dual" true [] true
                (example_state all_ok "open" (Some 7))).
  assert (Hrun : run = (fst run, snd run)) by (vm_compute; reflexivity).
  assert (Hr : fst run =
               Ok (set_transaction_open (example_connection "open" (Some 7))
                     true, 3%nat)) by (vm_compute; reflexivity).
  destruct (abridged_log_keeps_statement (scripted all_ok)
              "select 1 from dual" true [] true
              (example_state all_ok "open" (Some 7)) (snd run) (fst run) Hrun)
    as (_ & _ & _ & Hshort & d & Hd & _ & Hok).
  split; [apply Hshort; simpl; lia|].
  destruct (Hok _ _ Hr) as (Hexec & Hlog).
  destruct (Hlog eq_refl) as (_ & Habridged).
  rewrite Hd; split; apply in_or_app; right.
  - exact Hexec.
  - exact (Habridged eq_refl).
Defined.

(* ================================================================= *)
(** * Further properties of the credentials *)

Lemma append_empty (s t : string) : s ++ t = "" -> s = "" /\ t = "".
Proof. destruct s; simpl; [auto | discriminate]. Qed.

Lemma append_cancel_l (s t1 t2 : string) : s ++ t1 = s ++ t2 -> t1 = t2.
Proof.
  induction s as [|a s IH]; simpl; [auto|].
  intros [= H]; auto.
Qed.

Lemma append_length (s t : string) :
  String.length (s ++ t) = String.length s + String.length t.
Proof. induction s; simpl; congruence. Qed.

Lemma append_cancel_r (s1 s2 t : string) : s1 ++ t = s2 ++ t -> s1 = s2.
Proof.
  revert s2; induction s1 as [|a s1 IH]; intros [|b s2] H; simpl in H.
  - reflexivity.
  - apply (f_equal String.length) in H; simpl in H.
    rewrite append_length in H; lia.
  - apply (f_equal String.length) in H; simpl in H.
    rewrite append_length in H; lia.
  - injection H as -> H; f_equal; auto.
Qed.

Lemma str_int_inj (n m : Z) : str_int n = str_int m -> n = m.
Proof.
  unfold str_int; intros H.
  assert (Hnn : forall z, Z.to_int z <> Decimal.Pos Decimal.Nil /\
                          Z.to_int z <> Decimal.Neg Decimal.Nil).
  { intros [|p|p]; simpl; split; try discriminate;
      intros [= Hp]; now apply DecimalPos.Unsigned.to_uint_nonnil in Hp. }
  apply (f_equal NilZero.int_of_string) in H.
  rewrite !NilZero.isi in H by apply Hnn.
  injection H as H; now apply DecimalZ.to_int_inj.
Qed.

(** The DSN is always a string, and an empty one only under TNS with an
    empty database name. *)
Theorem get_dsn_empty_only_for_tns (c : OracleAdapterCredentials) :
  get_dsn c <> None /\
  (get_dsn c = Some "" <-> connection_method c = TNS /\ database c = "").
Proof.
  unfold get_dsn, connection_method.
  destruct (truthy_str (connection_string c)) eqn:Hcs.
  - apply truthy_str_some in Hcs as (s & Hs & Hne); rewrite Hs.
    split; [discriminate|]; split.
    + intros [= ->]; contradiction.
    + intros [[=] _].
  - destruct (truthy_str (host c)) eqn:Hh.
    + apply truthy_str_some in Hh as (h & Hh & Hne); rewrite Hh; simpl.
      split; [discriminate|]; split.
      * intros [= H]; apply append_empty in H as [-> _]; contradiction.
      * intros [[=] _].
    + split; [discriminate|]; split.
      * intros [= ->]; auto.
      * intros [_ ->]; reflexivity.
Qed.

Lemma get_dsn_empty_only_for_tns_witness :
  get_dsn {| database := ""; schema := "s"; user := "u"; password := "p";
             port := default_port; host := None; service := Some "svc";
             connection_string := Some "";
             debug_log_commands := None; cursor_precode := None |} =
  Some "".
Proof.
  apply (proj2 (get_dsn_empty_only_for_tns _)); split; reflexivity.
Defined.

(** Without a host the port and the service are not used: credentials
    that agree on database, host and connection string resolve to the
    same DSN unless the method is HOST. *)
Theorem port_and_service_need_host (c1 c2 : OracleAdapterCredentials) :
  same_but_port_service c1 c2 -> connection_method c1 <> HOST ->
  connection_method c2 = connection_method c1 /\ get_dsn c1 = get_dsn c2.
Proof.
  intros (Hdb & Hh & Hcs) Hm.
  unfold get_dsn, connection_method in *.
  rewrite <- Hdb, <- Hh, <- Hcs.
  destruct (truthy_str (connection_string c1)); [auto|].
  destruct (truthy_str (host c1)); [contradiction | auto].
Qed.

Lemma port_and_service_need_host_witness :
  get_dsn {| database := "ORCL"; schema := "s"; user := "u"; password := "p";
             port := Some 1522%Z; host := Some ""; service := Some "pdb1";
             connection_string := None;
             debug_log_commands := None; cursor_precode := None |} =
  get_dsn {| database := "ORCL"; schema := "s"; user := "u"; password := "p";
             port := None; host := Some ""; service := None;
             connection_string := None;
             debug_log_commands := None; cursor_precode := None |}.
Proof.
  apply port_and_service_need_host.
  - repeat split.
  - discriminate.
Defined.

(** Under HOST the port is part of the address: with the other fields
    equal, two integer ports give the same DSN only if they are the same
    port. *)
Theorem host_dsn_tells_ports_apart (c1 c2 : OracleAdapterCredentials)
  (p1 p2 : Z) :
  same_but_port_service c1 c2 -> service c1 = service c2 ->
  connection_method c1 = HOST ->
  port c1 = Some p1 -> port c2 = Some p2 ->
  get_dsn c1 = get_dsn c2 -> p1 = p2.
Proof.
  intros (Hdb & Hh & Hcs) Hsvc Hm Hp1 Hp2.
  assert (Hm2 : connection_method c2 = HOST).
  { unfold connection_method in *; now rewrite <- Hh, <- Hcs. }
  unfold get_dsn; rewrite Hm, Hm2, Hp1, Hp2, <- Hh, <- Hsvc, <- Hdb; simpl.
  intros [= H].
  apply append_cancel_l in H; injection H as H.
  apply append_cancel_r in H; now apply str_int_inj.
Qed.

Lemma host_dsn_tells_ports_apart_witness :
  get_dsn example_credentials <>
  get_dsn {| database := "ORCL"; schema := "analytics"; user := "dbt";
             password := "secret"; port := Some 1522%Z;
             host := Some "db.example.com"; service := None;
             connection_string := None; debug_log_commands := Some true;
             cursor_precode := None |}.
Proof.
  intros H.
  assert (Hp : 1521%Z = 1522%Z).
  { apply (host_dsn_tells_ports_apart example_credentials
             {| database := "ORCL"; schema := "analytics"; user := "dbt";
                password := "secret"; port := Some 1522%Z;
                host := Some "db.example.com"; service := None;
                connection_string := None; debug_log_commands := Some true;
                cursor_precode := None |} 1521 1522).
    - repeat split.
    - reflexivity.
    - reflexivity.
    - reflexivity.
    - reflexivity.
    - exact H. }
  discriminate Hp.
Defined.

(* ================================================================= *)
(** * Further properties of open and cancel *)

Lemma connects_app (E : Externals) (t d : list (event E)) :
  connects (t ++ d) = connects t + connects d.
Proof. unfold connects; now rewrite filter_app, length_app. Qed.

(** When the driver returns a handle, [open] stores it, sets the state
    to open and returns the connection; name, transaction flag and
    credentials are kept, and the only call made is the connect, with the
    user, the password, the DSN and the encoding UTF-8. *)
Theorem open_stores_handle (E : Externals) (s : State E) (h : Handle E)
  (w : World E) :
  (state (st_conn s) =? "open") = false -> connect_call s = (Ok h, w) ->
  exists c,
    open E s = (Ok c, moved s (c, w) (connect_attempt s)) /\
    handle c = Some h /\ state c = "open" /\
    name c = name (st_conn s) /\
    transaction_open c = transaction_open (st_conn s) /\
    credentials c = credentials (st_conn s).
Proof.
  intros Hs Hc.
  exists (set_state (set_handle (st_conn s) (Some h)) "open").
  rewrite (open_connects E s Hs), Hc; repeat split.
Qed.

Lemma open_stores_handle_witness :
  exists c,
    fst (open (scripted all_ok) (example_state all_ok "closed" None)) = Ok c /\
    handle c = Some 7 /\ state c = "open".
Proof.
  destruct (open_stores_handle (scripted all_ok)
              (example_state all_ok "closed" None) 7 1 eq_refl eq_refl)
    as (c & Hrun & Hh & Hst & _).
  exists c; rewrite Hrun; repeat split; assumption.
Defined.

(** An error of connect that is not a database error goes through
    [open] as it is, and the connection is left untouched: the state is
    not set to fail and the handle is not cleared. *)
Theorem open_passes_other_errors (E : Externals) (s : State E) (e : exc)
  (w : World E) :
  (state (st_conn s) =? "open") = false -> connect_call s = (Raise e, w) ->
  isinstance e cx_DatabaseError = false ->
  open E s = (Raise e, moved s (st_conn s, w) (connect_attempt s)).
Proof.
  intros Hs Hc He; now rewrite (open_connects E s Hs), Hc, He.
Qed.

Lemma open_passes_other_errors_witness :
  let s := example_state (with_connect all_ok (Raise DPI_1010)) "init" None in
  fst (open (scripted (with_connect all_ok (Raise DPI_1010))) s) =
  Raise DPI_1010 /\
  st_conn (snd (open (scripted (with_connect all_ok (Raise DPI_1010))) s)) =
  example_connection "init" None.
Proof.
  cbv zeta.
  rewrite (open_passes_other_errors
             (scripted (with_connect all_ok (Raise DPI_1010)))
             (example_state (with_connect all_ok (Raise DPI_1010)) "init"
                None)
             DPI_1010 1 eq_refl eq_refl eq_refl).
  split; reflexivity.
Defined.

(** In every run [open] calls connect exactly once, except on a
    connection whose state is open, where it calls it not at all; and it
    makes no other call to the driver or the host tool. *)
Theorem open_connects_once (E : Externals) (s : State E) :
  connects (st_trace (snd (open E s))) =
  connects (st_trace s) + (if state (st_conn s) =? "open" then 0 else 1) /\
  extends_with log_or_connect s (snd (open E s)).
Proof.
  destruct (state (st_conn s) =? "open") eqn:Hs.
  - apply String.eqb_eq in Hs; rewrite (open_skips E s Hs); simpl.
    split.
    + now rewrite connects_app.
    + eexists; split; [reflexivity | repeat constructor].
  - rewrite (open_connects E s Hs).
    destruct (connect_call s) as [[h|e] w]; [|destruct (isinstance e _)];
      simpl; rewrite ?connects_app; split; try reflexivity;
      eexists; (split; [reflexivity | repeat constructor]).
Qed.

(** After an [open] that succeeded, a second [open] finds the state
    open and does nothing but log: two calls create one handle. *)
Theorem open_after_open (E : Externals) (s : State E) (h : Handle E)
  (w : World E) :
  (state (st_conn s) =? "open") = false -> connect_call s = (Ok h, w) ->
  let s1 := snd (open E s) in
  open E s1 =
  (Ok (st_conn s1),
   logged s1 [Log DEBUG "Connection is already open, skipping open."]) /\
  handle (st_conn s1) = Some h /\
  connects (st_trace (snd (open E s1))) = connects (st_trace s) + 1.
Proof.
  intros Hs Hc; cbv zeta.
  rewrite (open_connects E s Hs), Hc; simpl snd.
  set (s1 := moved s _ (connect_attempt s)).
  assert (Hst : state (st_conn s1) = "open") by reflexivity.
  rewrite (open_skips E s1 Hst).
  split; [reflexivity | split; [reflexivity|]].
  unfold logged, s1, moved; state_simpl.
  rewrite !connects_app; unfold connect_attempt, connects; simpl; lia.
Qed.

Lemma open_after_open_witness :
  let s1 := snd (open (scripted all_ok) (example_state all_ok "closed" None)) in
  fst (open (scripted all_ok) s1) = Ok (example_connection "open" (Some 7)) /\
  connects (st_trace (snd (open (scripted all_ok) s1))) = 1.
Proof.
  cbv zeta.
  destruct (open_after_open (scripted all_ok)
              (example_state all_ok "closed" None) 7 1 eq_refl eq_refl)
    as (Hrun & _ & Hn).
  split; [rewrite Hrun; reflexivity | exact Hn].
Defined.

(** When the driver closes the handle, [cancel] has logged, closed the
    connection's handle and logged again, and nothing else; the
    connection object is as it was: [cancel] does not clear the handle
    or change the state. *)
Theorem cancel_closes_handle (E : Externals) (s : State E) (u : unit)
  (w : World E) :
  cx_close E (handle (st_conn s)) (st_world s) = (Ok u, w) ->
  cancel E s =
  (Ok tt,
   moved s (st_conn s, w)
     [Log INFO
        ("Cancelling query '" ++ format_opt_str (name (st_conn s)) ++ "' ");
      Close (handle (st_conn s));
      Log INFO
        ("Canceled query '" ++ format_opt_str (name (st_conn s)) ++ "'")]).
Proof.
  intros Hc; unfold cancel; monad_unfold; state_simpl; rewrite Hc.
  state_simpl; unfold moved; rewrite <- !app_assoc; reflexivity.
Qed.

Lemma cancel_closes_handle_witness :
  st_conn (snd (cancel (scripted all_ok)
                  (example_state all_ok "open" (Some 7)))) =
  example_connection "open" (Some 7) /\
  st_trace (snd (cancel (scripted all_ok)
                   (example_state all_ok "open" (Some 7)))) =
  [Log INFO "Cancelling query 'model.m' ";
   Close (Some 7 : option (Handle (scripted all_ok)));
   Log INFO "Canceled query 'model.m'"].
Proof.
  rewrite (cancel_closes_handle (scripted all_ok)
             (example_state all_ok "open" (Some 7)) tt 1 eq_refl).
  split; reflexivity.
Defined.

(** When the driver's close raises, [cancel] turns any [Exception] into
    a plain Exception that keeps only its message: the class and the
    cause are lost, so a driver error is no longer one; the second log
    line is not written.  What is not an [Exception] goes through as it
    is. *)
Theorem cancel_flattens_errors (E : Externals) (s : State E) (e : exc)
  (w : World E) :
  cx_close E (handle (st_conn s)) (st_world s) = (Raise e, w) ->
  let start :=
    [Log INFO
       ("Cancelling query '" ++ format_opt_str (name (st_conn s)) ++ "' ");
     Close (handle (st_conn s))] in
  let flat := MkExc Exception (ArgStr (exc_str e)) NoCause in
  (isinstance e Exception = true ->
   cancel E s =
   (Raise flat,
    moved s (st_conn s, w)
      (start ++ [Log ERROR "Error closing connection for cancel request"])))
  /\
  (isinstance e Exception = false ->
   cancel E s = (Raise e, moved s (st_conn s, w) start)) /\
  exc_str flat = exc_str e /\ isinstance flat cx_Error = false /\
  isinstance flat dbt_RuntimeException = false.
Proof.
  intros Hc; cbv zeta; repeat split.
  - intros He; unfold cancel; monad_unfold; state_simpl; rewrite Hc, He.
    state_simpl; unfold moved; rewrite <- !app_assoc; reflexivity.
  - intros He; unfold cancel; monad_unfold; state_simpl; rewrite Hc, He.
    state_simpl; unfold moved; rewrite <- !app_assoc; reflexivity.
Qed.

Lemma cancel_flattens_errors_witness :
  fst (cancel (scripted close_fails) (example_state close_fails "open" (Some 7)))
  = Raise (MkExc Exception (ArgStr "ORA-12541: TNS:no listener") NoCause).
Proof.
  destruct (cancel_flattens_errors (scripted close_fails)
              (example_state close_fails "open" (Some 7)) ORA_12541 1
              eq_refl) as (H & _).
  rewrite (H eq_refl); reflexivity.
Defined.

(* ================================================================= *)
(** * Further properties of the error-translation boundary *)

Lemma releases_app (E : Externals) (t d : list (event E)) :
  releases (t ++ d) = releases t + releases d.
Proof. unfold releases; now rewrite filter_app, length_app. Qed.

(** Whatever [Exception] other than a StopIteration the block raises, if
    release returns, what leaves the handler is a host-tool
    RuntimeException (a DatabaseException is one) that is the original
    error or has it as its cause.  A StopIteration of the block is the
    one exception: it leaves as itself. *)
Theorem handler_raises_runtime_exceptions (E : Externals) (A : Type)
  (sql : string) (body : M E A) (s s1 : State E) (e : exc) (u : unit) :
  body s = (Raise e, s1) -> isinstance e Exception = true ->
  fst (host_release E (st_conn s1, st_world s1)) = Ok u ->
  (isinstance e StopIteration = false ->
   exists e',
     fst (exception_handler sql body s) = Raise e' /\
     isinstance e' dbt_RuntimeException = true /\
     (e' = e \/ exc_cause_of e' = CausedBy e)) /\
  (isinstance e StopIteration = true ->
   fst (exception_handler sql body s) = Raise e /\
   isinstance e dbt_RuntimeException = false).
Proof.
  intros Hb He Hr.
  destruct (host_release E (st_conn s1, st_world s1)) as [r cw] eqn:Hrel.
  simpl in Hr; subst r.
  destruct (isinstance e cx_DatabaseError) eqn:Hd.
  - rewrite (handler_database_error E sql body s s1 e Hb Hd), Hrel.
    split.
    + intros _; eexists; split; [reflexivity|].
      split; [reflexivity | right; reflexivity].
    + intros Hs; rewrite (database_error_is_no_stop e Hd) in Hs.
      discriminate.
  - rewrite (handler_other_error E sql body s s1 e Hb Hd He), Hrel.
    split.
    + intros Hs; rewrite Hs.
      destruct (isinstance e dbt_RuntimeException) eqn:Hrt.
      * exists e; split; [reflexivity|].
        split; [exact Hrt | left; reflexivity].
      * eexists; split; [reflexivity|].
        split; [reflexivity | right; reflexivity].
    + intros Hs; rewrite Hs.
      destruct (isinstance e dbt_RuntimeException) eqn:Hrt.
      * rewrite (runtime_exception_is_no_stop e Hrt) in Hs; discriminate.
      * split; reflexivity.
Qed.

Lemma handler_raises_runtime_exceptions_witness :
  (exists e',
     fst (exception_handler missing_table
            (add_query_body (scripted statement_fails) missing_table []
               false)
            (example_state statement_fails "open" (Some 7))) = Raise e' /\
     isinstance e' dbt_RuntimeException = true) /\
  fst (exception_handler missing_table
         (add_query_body (scripted statement_stops) missing_table [] false)
         (example_state statement_stops "open" (Some 7))) =
  Raise stop_iteration.
Proof.
  split.
  - destruct (handler_raises_runtime_exceptions (scripted statement_fails) _
                missing_table
                (add_query_body (scripted statement_fails) missing_table []
                   false)
                (example_state statement_fails "open" (Some 7))
                (snd (add_query_body (scripted statement_fails)
                        missing_table [] false
                        (example_state statement_fails "open" (Some 7))))
                ORA_00942 tt eq_refl eq_refl eq_refl) as (H & _).
    destruct (H eq_refl) as (e' & Hrun & Hrt & _).
    exists e'; split; assumption.
  - destruct (handler_raises_runtime_exceptions (scripted statement_stops) _
                missing_table
                (add_query_body (scripted statement_stops) missing_table []
                   false)
                (example_state statement_stops "open" (Some 7))
                (snd (add_query_body (scripted statement_stops)
                        missing_table [] false
                        (example_state statement_stops "open" (Some 7))))
                stop_iteration tt eq_refl eq_refl eq_refl) as (_ & H).
    exact (proj1 (H eq_refl)).
Defined.

(** The handler calls release once when the block raises an
    [Exception], and not at all when the block returns or raises
    something that is not an [Exception]. *)
Lemma handler_release_count (E : Externals) (A : Type) (sql : string)
  (body : M E A) (s s1 : State E) (r : result A) :
  body s = (r, s1) ->
  releases (st_trace (snd (exception_handler sql body s))) =
  releases (st_trace s1) +
  match r with
  | Ok _ => 0
  | Raise e => if isinstance e Exception then 1 else 0
  end.
Proof.
  intros Hb; destruct r as [a|e].
  - rewrite (handler_returns E sql body s s1 a Hb); simpl; lia.
  - destruct (isinstance e cx_DatabaseError) eqn:Hd.
    + rewrite (handler_database_error E sql body s s1 e Hb Hd),
        (database_error_is_exception e Hd).
      destruct (host_release E _) as [[u|e'] cw];
        [|destruct (isinstance e' cx_Error)];
        simpl; rewrite releases_app; reflexivity.
    + destruct (isinstance e Exception) eqn:He.
      * rewrite (handler_other_error E sql body s s1 e Hb Hd He).
        destruct (host_release E _) as [[u|e'] cw];
          simpl; rewrite releases_app; reflexivity.
      * rewrite (handler_base_exception E sql body s s1 e Hb He); simpl; lia.
Qed.

(* ================================================================= *)
(** * Further properties of add_query *)

Lemma releases_unchanged (E : Externals) (t d : list (event E)) :
  Forall (fun ev => is_release ev = false) d -> releases (t ++ d) = releases t.
Proof.
  intros Hd; rewrite releases_app.
  assert (H0 : releases d = 0).
  { unfold releases; induction Hd as [|ev d Hev _ IH]; simpl;
      [reflexivity | now rewrite Hev]. }
  lia.
Qed.

(** The block of [add_query] never calls release itself. *)
Lemma add_query_body_no_release (E : Externals) (sql : string)
  (bindings : Bindings E) (abridge_sql_log : bool) :
  sound (extends_with (fun ev : event E => is_release ev = false)) any_exc
    (add_query_body E sql bindings abridge_sql_log).
Proof.
  pose proof (extends_with_preorder E (fun ev => is_release ev = false))
    as Hpre.
  unfold_add_query.
  repeat first [sound_handler | sound_step]; try sound_prim; try exact I; try (intros; exact I);
    try (intros; eapply extends_with_one; [reflexivity | reflexivity]).
  - intros s w; exists []; split; [now rewrite app_nil_r | constructor].
  - intros s w; exists []; split; [now rewrite app_nil_r | constructor].
Qed.

(** In every run [add_query] calls release at most once, and in a run
    that returns it does not call it: a connection is released only on
    failure. *)
Theorem add_query_releases_on_failure_only (E : Externals) (sql : string)
  (auto_begin : bool) (bindings : Bindings E) (abridge_sql_log : bool)
  (s s' : State E) (r : result (DBTConnection (Handle E) * Cursor E)) :
  add_query E sql auto_begin bindings abridge_sql_log s = (r, s') ->
  releases (st_trace s') <= releases (st_trace s) + 1 /\
  (forall a, r = Ok a -> releases (st_trace s') = releases (st_trace s)).
Proof.
  intros Hrun.
  destruct (add_query_cases E sql auto_begin bindings abridge_sql_log
              s s' r Hrun) as [(s0 & Ht & Hbody) | (e & -> & _ & _ & Ht)].
  - set (body := add_query_body E sql bindings abridge_sql_log) in *.
    set (s1 := logged s0 [using_log (st_conn s0)]) in *.
    assert (Hs1 : releases (st_trace s1) = releases (st_trace s)).
    { unfold s1, logged; state_simpl; rewrite Ht.
      rewrite <- app_assoc; apply releases_unchanged.
      unfold begun; destruct (auto_begin && _); repeat constructor. }
    destruct (body s1) as [rb s2] eqn:Hb.
    destruct (add_query_body_no_release E sql bindings abridge_sql_log s1)
      as [(d & Hd & Hall) _].
    fold body in Hd; rewrite Hb in Hd; cbn [snd] in Hd.
    pose proof (handler_release_count E _ sql body s1 s2 rb Hb) as Hn.
    rewrite Hbody in Hn; cbn [snd] in Hn.
    rewrite Hd, (releases_unchanged E _ d Hall), Hs1 in Hn.
    split.
    + rewrite Hn; destruct rb as [a|e]; [lia|].
      destruct (isinstance e Exception); lia.
    + intros a ->; destruct rb as [b|e]; [lia|].
      destruct (handler_raises E sql body s1 s2 e Hb) as (e' & s3 & Hr).
      rewrite Hr in Hbody; discriminate.
  - split; [|discriminate].
    rewrite Ht; rewrite (releases_unchanged E _ [Begin]);
      [lia | repeat constructor].
Qed.

Lemma add_query_releases_on_failure_only_witness :
  releases
    (st_trace
       (snd (add_query (scripted statement_fails) missing_table true []
               false (example_state statement_fails "open" (Some 7))))) <= 1.
Proof.
  set (run := add_query (scripted statement_fails) missing_table true []
                false (example_state statement_fails "open" (Some 7))).
  assert (Hrun : run = (fst run, snd run)) by (vm_compute; reflexivity).
  exact (proj1 (add_query_releases_on_failure_only (scripted statement_fails)
                  missing_table true [] false
                  (example_state statement_fails "open" (Some 7))
                  (snd run) (fst run) Hrun)).
Defined.

(** An exception of the host tool's [begin] is raised outside the
    handler: it leaves [add_query] as it is, nothing is logged, no
    cursor is created and the connection is not released. *)
Theorem add_query_begin_failure (E : Externals) (sql : string)
  (bindings : Bindings E) (abridge_sql_log : bool) (s : State E) (e : exc)
  (cw : DBTConnection (Handle E) * World E) :
  transaction_open (st_conn s) = false ->
  host_begin E (st_conn s, st_world s) = (Raise e, cw) ->
  add_query E sql true bindings abridge_sql_log s =
  (Raise e, moved s cw [Begin]).
Proof.
  intros Ht Hb; rewrite add_query_unfold, Ht; simpl.
  unfold begin, call_host; rewrite Hb; reflexivity.
Qed.

Lemma add_query_begin_failure_witness :
  let run :=
    add_query (scripted begin_fails) missing_table true [] false
      (example_state begin_fails "open" (Some 7)) in
  fst run = Raise compilation_error /\
  st_trace (snd run) = [Begin].
Proof.
  cbv zeta.
  rewrite (add_query_begin_failure (scripted begin_fails) missing_table []
             false (example_state begin_fails "open" (Some 7))
             compilation_error
             (set_transaction_open (example_connection "open" (Some 7)) true,
              1)
             eq_refl eq_refl).
  split; reflexivity.
Defined.

(** In no run does [add_query] itself call the driver's connect or
    close: the calls it makes are log lines, [begin], [release], the
    cursor creation, execute and commit.  (What the host tool's [begin]
    and [release] do to the handle is theirs.) *)
Theorem add_query_calls_no_connect_or_close (E : Externals) (sql : string)
  (auto_begin : bool) (bindings : Bindings E) (abridge_sql_log : bool)
  (s : State E) :
  extends_with no_connect_or_close s
    (snd (add_query E sql auto_begin bindings abridge_sql_log s)) /\
  connects
    (st_trace (snd (add_query E sql auto_begin bindings abridge_sql_log s)))
  = connects (st_trace s).
Proof.
  assert (Hs : sound (extends_with (@no_connect_or_close E)) any_exc
                 (add_query E sql auto_begin bindings abridge_sql_log)).
  { pose proof (extends_with_preorder E (@no_connect_or_close E)) as Hpre.
    unfold_add_query.
    repeat first [sound_handler | sound_step]; try sound_prim; try exact I; try (intros; exact I);
      try (intros; eapply extends_with_one; [reflexivity | exact I]).
    - intros s0 w; exists []; split; [now rewrite app_nil_r | constructor].
    - intros s0 w; exists []; split; [now rewrite app_nil_r | constructor]. }
  destruct (Hs s) as [Hext _]; split; [exact Hext|].
  destruct Hext as (d & -> & Hall).
  rewrite connects_app.
  assert (H0 : connects d = 0).
  { unfold connects; induction Hall as [|ev d Hev _ IH]; simpl;
      [reflexivity|].
    destruct ev; simpl in *; try exact IH; contradiction. }
  lia.
Qed.

(** On a connection without a handle (and with no [begin] due),
    [add_query] makes no call to the driver: the failed attribute lookup
    is handled as any other error, the connection is released and a
    RuntimeException built on the AttributeError is raised. *)
Theorem add_query_without_handle (E : Externals) (sql : string)
  (auto_begin : bool) (bindings : Bindings E) (abridge_sql_log : bool)
  (s : State E) (u : unit) (cw : DBTConnection (Handle E) * World E) :
  auto_begin && negb (transaction_open (st_conn s)) = false ->
  handle (st_conn s) = None ->
  host_release E (st_conn s, snd (time_time E (st_world s))) = (Ok u, cw) ->
  add_query E sql auto_begin bindings abridge_sql_log s =
  (Raise (MkExc dbt_RuntimeException (ArgExc (AttributeError "cursor"))
            (CausedBy (AttributeError "cursor"))),
   moved s cw
     ([using_log (st_conn s)]
      ++ statement_log (st_conn s) abridge_sql_log sql
      ++ [Log ERROR "Rolling back transaction."; Release])).
Proof.
  intros Hcond Hh Hrel.
  rewrite add_query_unfold, Hcond.
  set (s1 := logged s [using_log (st_conn s)]).
  assert (Hb : add_query_body E sql bindings abridge_sql_log s1 =
               (Raise (AttributeError "cursor"),
                {| st_conn := st_conn s;
                   st_world := snd (time_time E (st_world s));
                   st_trace :=
                     st_trace s ++ [using_log (st_conn s)]
                     ++ statement_log (st_conn s) abridge_sql_log sql |})).
  { unfold add_query_body, statement_log, s1, logged; monad_unfold;
      state_simpl.
    destruct (truthy_bool (debug_log_commands (credentials (st_conn s))));
      state_simpl;
      destruct (time_time E (st_world s)) as [t w0]; state_simpl;
      rewrite Hh; rewrite <- ?app_assoc; reflexivity. }
  rewrite (handler_other_error E sql _ s1 _ _ Hb eq_refl eq_refl).
  state_simpl; rewrite Hrel.
  unfold moved; state_simpl; rewrite <- !app_assoc; reflexivity.
Qed.

Lemma add_query_without_handle_witness :
  let run :=
    add_query (scripted all_ok) missing_table false [] false
      (example_state all_ok "open" None) in
  fst run =
  Raise (MkExc dbt_RuntimeException (ArgExc (AttributeError "cursor"))
           (CausedBy (AttributeError "cursor"))) /\
  st_trace (snd run) =
  [Log DEBUG ("Using oracle connection " ++ dquote ++ "model.m" ++ dquote
              ++ ".");
   FireEvent (mkHookInfo "On model.m: SELECT * FROM missing");
   Log ERROR "Rolling back transaction.";
   Release].
Proof.
  cbv zeta.
  rewrite (add_query_without_handle (scripted all_ok) missing_table false []
             false (example_state all_ok "open" None) tt
             (set_transaction_open (example_connection "open" None) false, 2)
             eq_refl eq_refl eq_refl).
  split; reflexivity.
Defined.

Lemma sound_bind_stuck (E : Externals) (T : State E -> State E -> Prop)
  (Q : exc -> Prop) {A B} (m : M E A) (k : A -> M E B) :
  sound T Q m -> (forall s a, fst (m s) <> Ok a) -> sound T Q (bind m k).
Proof.
  intros Hm Hstuck s; unfold bind.
  destruct (Hm s) as [Ht Hq]; pose proof (Hstuck s) as Hs.
  destruct (m s) as [[a|e] s1]; simpl in *.
  - exfalso; apply (Hs a); reflexivity.
  - split; [exact Ht|].
    intros e' [= <-]; apply Hq; reflexivity.
Qed.

(** When the driver rejects the statement, [add_query] never commits
    and never returns: every run raises, and no run calls commit. *)
Theorem rejected_statement_is_not_committed (E : Externals) (sql : string)
  (auto_begin : bool) (bindings : Bindings E) (abridge_sql_log : bool)
  (s : State E) :
  driver_rejects E sql bindings ->
  extends_with not_commit s
    (snd (add_query E sql auto_begin bindings abridge_sql_log s)) /\
  exists e,
    fst (add_query E sql auto_begin bindings abridge_sql_log s) = Raise e.
Proof.
  intros Hrej.
  assert (Hs : sound (extends_with (@not_commit E)) any_exc
                 (add_query E sql auto_begin bindings abridge_sql_log)).
  { pose proof (extends_with_preorder E (@not_commit E)) as Hpre.
    unfold_add_query.
    repeat first
      [ match goal with
        | |- sound _ _ (bind (call_driver _ (Execute _ _ (Some _)) _) _) =>
            apply sound_bind_stuck
        end
      | sound_handler
      | sound_step ];
      try sound_prim; try exact I; try (intros; exact I);
      try (intros; eapply extends_with_one; [reflexivity | exact I]).
    all: try (intros ? ?; exists []; split;
              [now rewrite app_nil_r | constructor]).
    all: intros ? ?; unfold call_driver;
      match goal with
      | |- context [cx_execute _ ?c _ _ ?w] =>
          let He := fresh "He" in
          destruct (Hrej c w) as [? He];
          destruct (cx_execute _ c _ _ w);
          simpl in *; congruence
      end. }
  destruct (Hs s) as [Hext _]; split; [exact Hext|].
  destruct (add_query E sql auto_begin bindings abridge_sql_log s)
    as [[[c cur]|e] s'] eqn:Hrun; [|exists e; reflexivity].
  exfalso.
  destruct (add_query_cases E sql auto_begin bindings abridge_sql_log
              s s' _ Hrun) as [(s0 & Hs0 & Hbody) | (e & He & _)];
    [|discriminate].
  destruct (handled_body_runs E sql bindings abridge_sql_log s0 s' _ Hbody)
    as (_ & Hok).
  destruct (Hok c cur eq_refl) as (_ & h & elapsed & _ & Ht).
  destruct Hext as (d & Hd & Hall); simpl in Hd.
  rewrite Hs0, Hd, <- app_assoc in Ht; apply app_inv_head in Ht; subst d.
  rewrite !Forall_app in Hall.
  destruct Hall as (_ & _ & _ & _ & _ & Hc & _).
  inversion Hc as [|? ? _ Hc']; inversion Hc' as [|? ? Hcommit _].
  exact Hcommit.
Qed.

Lemma rejected_statement_is_not_committed_witness :
  exists e,
    fst (add_query (scripted rejects_all) missing_table true [] false
           (example_state rejects_all "open" (Some 7))) = Raise e.
Proof.
  apply (rejected_statement_is_not_committed (scripted rejects_all)
           missing_table true [] false
           (example_state rejects_all "open" (Some 7))).
  intros c w; exists ORA_00942; reflexivity.
Defined.

(* ================================================================= *)
(** * The message of a DatabaseException *)

Lemma append_nil_r (s : string) : s ++ "" = s.
Proof. induction s; simpl; congruence. Qed.

Lemma lstrip_blank (s : string) : blank s = true -> lstrip s = "".
Proof.
  induction s as [|a s IH]; simpl; [reflexivity|].
  intros H; apply andb_true_iff in H as [Ha Hs]; now rewrite Ha, IH.
Qed.

Lemma lstrip_app_blank (l s : string) :
  blank l = true -> lstrip (l ++ s) = lstrip s.
Proof.
  induction l as [|a l IH]; simpl; [reflexivity|].
  intros H; apply andb_true_iff in H as [Ha Hl]; now rewrite Ha, IH.
Qed.

Lemma lstrip_trimmed (m : string) (a : ascii) :
  first_char m = Some a -> isspace a = false -> lstrip m = m.
Proof.
  destruct m as [|b m]; simpl; [discriminate|].
  intros [= ->] ->; reflexivity.
Qed.

Lemma rstrip_blank (s : string) : blank s = true -> rstrip s = "".
Proof.
  induction s as [|a s IH]; simpl; [reflexivity|].
  intros H; apply andb_true_iff in H as [Ha Hs]; now rewrite IH, Ha.
Qed.

Lemma rstrip_app_blank (m r : string) :
  blank r = true -> rstrip (m ++ r) = rstrip m.
Proof.
  intros Hr; induction m as [|a m IH]; simpl.
  - now apply rstrip_blank.
  - now rewrite IH.
Qed.

Lemma rstrip_trimmed (m : string) (b : ascii) :
  last_char m = Some b -> isspace b = false -> rstrip m = m.
Proof.
  induction m as [|a m IH]; simpl; [discriminate|].
  destruct (last_char m) as [c|] eqn:Hl.
  - intros [= ->] Hb; rewrite (IH eq_refl Hb).
    destruct m; [discriminate | reflexivity].
  - intros [= ->] Hb.
    destruct m as [|c m]; [simpl; now rewrite Hb|].
    simpl in Hl; destruct (last_char m); discriminate.
Qed.

(** [strip] takes away the whitespace around a text that begins and
    ends with other characters, and leaves nothing of a blank text. *)
Lemma strip_padded (l m r : string) (a b : ascii) :
  blank l = true -> blank r = true ->
  first_char m = Some a -> isspace a = false ->
  last_char m = Some b -> isspace b = false ->
  strip (l ++ m ++ r) = m.
Proof.
  intros Hl Hr Ha Hsa Hb Hsb; unfold strip.
  rewrite (lstrip_app_blank l _ Hl).
  assert (Hf : first_char (m ++ r) = Some a).
  { destruct m; [discriminate | exact Ha]. }
  rewrite (lstrip_trimmed _ a Hf Hsa), (rstrip_app_blank m r Hr).
  exact (rstrip_trimmed m b Hb Hsb).
Qed.

Lemma strip_blank (s : string) : blank s = true -> strip s = "".
Proof. intros H; unfold strip; now rewrite (lstrip_blank s H). Qed.

(** The message of the DatabaseException that the handler raises does
    not carry the whitespace around the driver's message: it is the SQL
    text followed at once by the message without its padding, and the
    SQL text alone when the driver's message is blank. *)
Theorem database_exception_message (E : Externals) (A : Type)
  (sql : string) (body : M E A) (s s1 : State E) (e : exc) (u : unit) :
  body s = (Raise e, s1) -> isinstance e cx_DatabaseError = true ->
  fst (host_release E (st_conn s1, st_world s1)) = Ok u ->
  exists e',
    fst (exception_handler sql body s) = Raise e' /\
    (blank (exc_str e) = true -> exc_str e' = sql) /\
    (forall l m r a b,
       exc_str e = l ++ m ++ r -> blank l = true -> blank r = true ->
       first_char m = Some a -> isspace a = false ->
       last_char m = Some b -> isspace b = false ->
       exc_str e' = sql ++ m).
Proof.
  intros Hb Hd Hr.
  rewrite (handler_database_error E sql body s s1 e Hb Hd).
  destruct (host_release E (st_conn s1, st_world s1)) as [r cw].
  simpl in Hr; subst r.
  eexists; split; [reflexivity|]; simpl; split.
  - intros Hblank; now rewrite (strip_blank _ Hblank), append_nil_r.
  - intros l m r a b -> Hl Hrr Ha Hsa Hlast Hsb.
    now rewrite (strip_padded l m r a b Hl Hrr Ha Hsa Hlast Hsb).
Qed.

Lemma database_exception_message_witness :
  exists e',
    fst (exception_handler missing_table
           (raise ORA_padded : M (scripted all_ok) unit)
           (example_state all_ok "open" (Some 7))) = Raise e' /\
    exc_str e' = "SELECT * FROM missingORA-00942: no such table".
Proof.
  destruct (database_exception_message (scripted all_ok) unit missing_table
              (raise ORA_padded) (example_state all_ok "open" (Some 7))
              (example_state all_ok "open" (Some 7)) ORA_padded tt
              eq_refl eq_refl eq_refl) as (e' & Hrun & _ & Hmsg).
  exists e'; split; [exact Hrun|].
  apply (Hmsg (String (ascii_of_nat 10) " ") "ORA-00942: no such table"
           "  " "O"%char "e"%char); reflexivity.
Defined.

(* ================================================================= *)
(** * How open and cancel compose *)

(** After an [open] that failed in the driver the connection is in
    state fail with no handle, and the next [open] does not skip: it
    calls connect again, and stores the handle if it gets one. *)
Theorem open_retries_after_failure (E : Externals) (s : State E) (e : exc)
  (w : World E) :
  (state (st_conn s) =? "open") = false -> connect_call s = (Raise e, w) ->
  isinstance e cx_DatabaseError = true ->
  let s1 := snd (open E s) in
  state (st_conn s1) = "fail" /\ handle (st_conn s1) = None /\
  connects (st_trace (snd (open E s1))) = connects (st_trace s) + 2 /\
  (forall h w', connect_call s1 = (Ok h, w') ->
     exists c, fst (open E s1) = Ok c /\ handle c = Some h /\
               state c = "open").
Proof.
  intros Hs Hc He; cbv zeta.
  rewrite (open_connects E s Hs), Hc, He; simpl snd.
  set (s1 := moved s _ _).
  assert (Hs1 : (state (st_conn s1) =? "open") = false) by reflexivity.
  assert (Hn1 : connects (st_trace s1) = connects (st_trace s) + 1).
  { unfold s1, moved; state_simpl.
    rewrite !connects_app; unfold connect_attempt, connects; simpl; lia. }
  split; [reflexivity | split; [reflexivity|]].
  clearbody s1; split.
  - rewrite (open_connects E s1 Hs1).
    destruct (connect_call s1) as [[h|e1] w1];
      [|destruct (isinstance e1 cx_DatabaseError)];
      unfold moved; state_simpl; rewrite !connects_app, Hn1;
      unfold connect_attempt, connects; simpl; lia.
  - intros h w' Hc1; rewrite (open_connects E s1 Hs1), Hc1.
    eexists; repeat split.
Qed.

Lemma open_retries_after_failure_witness :
  connects
    (st_trace
       (snd (open (scripted no_listener)
               (snd (open (scripted no_listener)
                       (example_state no_listener "init" None)))))) = 2.
Proof.
  exact (proj1 (proj2 (proj2
           (open_retries_after_failure (scripted no_listener)
              (example_state no_listener "init" None) ORA_12541 1
              eq_refl eq_refl eq_refl)))).
Defined.

Lemma cancel_events (E : Externals) (s : State E) :
  extends_with log_or_close s (snd (cancel E s)).
Proof.
  unfold cancel; monad_unfold; state_simpl.
  destruct (cx_close E _ _) as [[u|e] w]; state_simpl;
    [|destruct (isinstance e Exception); state_simpl];
    rewrite <- ?app_assoc;
    (eexists; split; [reflexivity | repeat constructor]).
Qed.

(** [cancel] closes the handle but leaves the connection marked open
    with that handle, whether the close succeeded or not; an [open] that
    follows therefore skips, and no new handle is created. *)
Theorem cancel_leaves_connection_open (E : Externals) (s : State E) :
  state (st_conn s) = "open" ->
  let s1 := snd (cancel E s) in
  st_conn s1 = st_conn s /\
  open E s1 =
  (Ok (st_conn s),
   logged s1 [Log DEBUG "Connection is already open, skipping open."]) /\
  connects (st_trace (snd (open E s1))) = connects (st_trace s).
Proof.
  intros Hs; cbv zeta.
  destruct (cancel_keeps_connection E s) as [Hconn _].
  set (s1 := snd (cancel E s)) in *.
  assert (Hs1 : state (st_conn s1) = "open") by now rewrite Hconn.
  rewrite (open_skips E s1 Hs1), Hconn.
  split; [reflexivity | split; [reflexivity|]].
  destruct (cancel_events E s) as (d & Hd & Hall); fold s1 in Hd.
  unfold logged; simpl; rewrite Hd, !connects_app.
  assert (H0 : connects d = 0).
  { clear - Hall.
    unfold connects; induction Hall as [|ev d Hev _ IH]; simpl;
      [reflexivity|].
    destruct ev; simpl in *; try exact IH; contradiction. }
  rewrite H0; unfold connects; simpl; lia.
Qed.

Lemma cancel_leaves_connection_open_witness :
  fst (open (scripted all_ok)
         (snd (cancel (scripted all_ok)
                 (example_state all_ok "open" (Some 7))))) =
  Ok (example_connection "open" (Some 7)).
Proof.
  destruct (cancel_leaves_connection_open (scripted all_ok)
              (example_state all_ok "open" (Some 7)) eq_refl)
    as (_ & Hrun & _).
  rewrite Hrun; reflexivity.
Defined.
